(** * fastapi-skeleton: credential/session lifecycle and rate limiter

    A shallow embedding of [app/core/rate_limit.py], [app/core/security.py]
    and [app/api/routes/auth.py], with the properties of the design
    document stated and proved over it. *)

From Stdlib Require Import ZArith Lia Bool.
From Stdlib Require Import Floats.SpecFloat.
From Stdlib Require Import DecimalString DecimalPos DecimalZ Ascii.
From stdpp Require Import base option list strings gmap fin_maps.

Local Open Scope Z_scope.

(** ** Python exceptions and the result of a call *)

(** The exceptions that the modelled code can raise.  [HTTPException]
    carries the status code and the [detail] text of the source. *)
Inductive exn : Type :=
  | OverflowError
  | ZeroDivisionError
  | ValueError
  | MultipleResultsFound
  | IntegrityError
  | JWTError
  | ExpiredSignatureError
  | HTTPException (status_code : Z) (detail : string).

Inductive res (A : Type) : Type :=
  | Ok (a : A)
  | Raise (e : exn).
Arguments Ok {A} a.
Arguments Raise {A} e.

#[global] Instance res_ret : MRet res := fun A a => Ok a.
#[global] Instance res_bind : MBind res := fun A B k m =>
  match m with
  | Ok a => k a
  | Raise e => Raise e
  end.

Definition is_ok {A} (m : res A) : bool :=
  match m with Ok _ => true | Raise _ => false end.

(** ** Python numbers: [int] and binary64 [float] *)

Module PyNum.

Definition prec : Z := 53.
Definition emax : Z := 1024.

Definition float : Type := spec_float.

Definition fadd : float -> float -> float := SFadd prec emax.
Definition fsub : float -> float -> float := SFsub prec emax.
Definition fmul : float -> float -> float := SFmul prec emax.
Definition fdiv : float -> float -> float := SFdiv prec emax.

Definition is_zero (f : float) : bool :=
  match f with S754_zero _ => true | _ => false end.

Definition is_finite (f : float) : bool :=
  match f with S754_zero _ | S754_finite _ _ _ => true | _ => false end.

(** [float(z)]: round to nearest even; [OverflowError] when the integer
    is too large for a binary64. *)
Definition float_of_int (z : Z) : res float :=
  match binary_normalize prec emax z 0 false with
  | S754_infinity _ => Raise OverflowError
  | f => Ok f
  end.

(** A value held by an attribute that the code assigns both [int] and
    [float] to ([TokenBucket.tokens]). *)
Inductive num : Type :=
  | PyInt (z : Z)
  | PyFloat (f : float).

(** Python compares an [int] with a [float] by value, without rounding
    the integer.  [None] stands for a comparison with NaN. *)
Definition float_compare_int (f : float) (z : Z) : option comparison :=
  match f with
  | S754_nan => None
  | S754_infinity true => Some Lt
  | S754_infinity false => Some Gt
  | S754_zero _ => Some (0 ?= z)
  | S754_finite s m e =>
      let sm := if s then Z.neg m else Z.pos m in
      Some (if 0 <=? e then (sm * 2 ^ e ?= z) else (sm ?= z * 2 ^ (- e)))
  end.

Definition compare (a b : num) : option comparison :=
  match a, b with
  | PyInt x, PyInt y => Some (x ?= y)
  | PyFloat f, PyInt y => float_compare_int f y
  | PyInt x, PyFloat g => CompOpp <$> float_compare_int g x
  | PyFloat f, PyFloat g => SFcompare f g
  end.

(** [a < b], [a >= b] and [a != b]. *)
Definition ltb (a b : num) : bool :=
  match compare a b with Some Lt => true | _ => false end.
Definition geb (a b : num) : bool :=
  match compare a b with Some (Gt | Eq) => true | _ => false end.
Definition neqb (a b : num) : bool :=
  match compare a b with Some Eq => false | _ => true end.

Definition to_float (a : num) : res float :=
  match a with
  | PyInt z => float_of_int z
  | PyFloat f => Ok f
  end.

(** [a + b] and [a - b]: integer arithmetic on two integers, otherwise
    both sides are converted to [float]. *)
Definition add (a b : num) : res num :=
  match a, b with
  | PyInt x, PyInt y => Ok (PyInt (x + y))
  | _, _ => x ← to_float a; y ← to_float b; Ok (PyFloat (fadd x y))
  end.

Definition sub (a b : num) : res num :=
  match a, b with
  | PyInt x, PyInt y => Ok (PyInt (x - y))
  | _, _ => x ← to_float a; y ← to_float b; Ok (PyFloat (fsub x y))
  end.

(** [a / b] with a [float] divisor: [ZeroDivisionError] on a zero
    divisor. *)
Definition truediv (a : num) (g : float) : res float :=
  x ← to_float a;
  if is_zero g then Raise ZeroDivisionError else Ok (fdiv x g).

(** The builtin [min(a, b)] returns [b] when [b < a] and [a] otherwise. *)
Definition min (a b : num) : num := if ltb b a then b else a.

End PyNum.

(** ** [app/core/rate_limit.py] *)

Module RateLimit.
Import PyNum.

(** class TokenBucket *)
Record TokenBucket : Type := {
  capacity : Z;
  tokens : num;
  refill_rate : float;
  last_refill : float
}.

(** [TokenBucket.__init__], with [time.monotonic()] read as [now]. *)
Definition TokenBucket_init (capacity : Z) (refill_rate : float) (now : float)
  : TokenBucket :=
  {| capacity := capacity;
     tokens := PyInt capacity;
     refill_rate := refill_rate;
     last_refill := now |}.

(** [TokenBucket.allow]: the outcome and the bucket after the call. *)
Definition allow (self : TokenBucket) (now : float) (cost : Z)
  : res (bool * TokenBucket) :=
  let elapsed := fsub now (last_refill self) in
  let refill := fmul elapsed (refill_rate self) in
  self ←
    (if ltb (PyInt 0) (PyFloat refill) then
       t ← add (tokens self) (PyFloat refill);
       Ok {| capacity := capacity self;
             tokens := min (PyInt (capacity self)) t;
             refill_rate := refill_rate self;
             last_refill := now |}
     else Ok self);
  if geb (tokens self) (PyInt cost) then
    t ← sub (tokens self) (PyInt cost);
    Ok (true, {| capacity := capacity self;
                 tokens := t;
                 refill_rate := refill_rate self;
                 last_refill := last_refill self |})
  else Ok (false, self).

(** Successive [allow(cost)] calls on one bucket, one for each clock
    reading of [nows]: the answers and the bucket after the last call. *)
Fixpoint allow_all (self : TokenBucket) (nows : list float) (cost : Z)
  : res (list bool * TokenBucket) :=
  match nows with
  | [] => Ok ([], self)
  | now :: nows =>
      '(a, self) ← allow self now cost;
      '(answers, self) ← allow_all self nows cost;
      Ok (a :: answers, self)
  end.

(** class InMemoryStore: [buckets] is a dict from key to bucket. *)
Abbreviation InMemoryStore := (gmap string TokenBucket).

Definition InMemoryStore_init : InMemoryStore := ∅.

(** [InMemoryStore.get_bucket]: the bucket returned and the store after
    the call. *)
Definition get_bucket (self : InMemoryStore) (key : string)
    (capacity' : Z) (window : Z) (now : float)
  : res (TokenBucket * InMemoryStore) :=
  w ← float_of_int window;
  rate ← truediv (PyInt capacity') w;
  let fresh := TokenBucket_init capacity' rate now in
  match self !! key with
  | None => Ok (fresh, <[key := fresh]> self)
  | Some bucket =>
      if negb (capacity bucket =? capacity')
         || neqb (PyFloat (refill_rate bucket)) (PyFloat rate)
      then Ok (fresh, <[key := fresh]> self)
      else Ok (bucket, self)
  end.

End RateLimit.

(** ** Strings and integers: [str(n)] and [int(s)] *)

Module PyStr.

(** [str(n)] for an [int] [n]: its decimal notation. *)
Definition str (n : Z) : string := NilZero.string_of_int (Z.to_int n).

(** [int(s)] for a string [s]: [ValueError] when [s] is not a decimal
    notation.  (Python also accepts surrounding blanks, a leading [+] and
    underscores between digits; no string that [str] produces has them.) *)
Definition int (s : string) : res Z :=
  match NilZero.int_of_string s with
  | Some d => Ok (Z.of_int d)
  | None => Raise ValueError
  end.

End PyStr.

(** ** The signed token format *)

Module Jose.

(** A claim value of the flat key/value claim set. *)
Inductive jvalue : Type :=
  | JStr (s : string)
  | JInt (z : Z).

#[global] Instance jvalue_eq_dec : EqDecision jvalue.
Proof. solve_decision. Defined.

Abbreviation claims := (gmap string jvalue).

(** The signature of a token: a keyed MAC, taken symbolically.  Two
    signatures are equal exactly when key, algorithm and signed claim set
    are. *)
Inductive signature : Type :=
  | Mac (key : string) (alg : string) (payload : claims).

#[global] Instance signature_eq_dec : EqDecision signature.
Proof. solve_decision. Defined.

(** A token as it arrives: either a string that does not split into
    header, claim set and signature, or the three segments. *)
Inductive token : Type :=
  | Opaque (raw : string)
  | Jws (alg : string) (payload : claims) (sig : signature).

(** Modelled from the spec: [jose.jwt.encode], of the python-jose
    library, which is not part of the source tree.  "three dot-joined
    base64url segments (header, claim-set, signature) signed with a
    symmetric key and a configured algorithm". *)
Definition encode (payload : claims) (key : string) (algorithm : string)
  : token :=
  Jws algorithm payload (Mac key algorithm payload).

(** Modelled from the spec: [jose.jwt.decode], of the python-jose
    library, which is not part of the source tree.  "verifies signature
    and standard time validity.  Fails with InvalidToken on malformed
    input or signature mismatch, TokenExpired when current time >= claims
    expiry."  [JWTError] is InvalidToken and [ExpiredSignatureError] is
    TokenExpired; [now] is the clock read by the call. *)
Definition decode (t : token) (key : string) (algorithms : list string)
    (now : Z) : res claims :=
  match t with
  | Opaque _ => Raise JWTError
  | Jws alg payload sig =>
      if bool_decide (alg ∈ algorithms)
         && bool_decide (sig = Mac key alg payload)
      then
        match payload !! "exp" with
        | None => Ok payload
        | Some (JInt exp) =>
            if exp <=? now then Raise ExpiredSignatureError else Ok payload
        | Some (JStr _) => Raise JWTError
        end
      else Raise JWTError
  end.

End Jose.

(** ** [app/core/config.py] *)

Record Settings : Type := {
  PROJECT_NAME : string;
  API_V1_STR : string;
  SECRET_KEY : string;
  ACCESS_TOKEN_EXPIRES_MINUTES : Z;
  REFRESH_TOKEN_EXPIRES_DAYS : Z;
  JWT_ALGORITHM : string;
  DATABASE_URL : string;
  RATE_LIMIT_DEFAULT_LIMIT : Z;
  RATE_LIMIT_DEFAULT_WINDOW : Z;
  RATE_LIMIT_LOGIN_LIMIT : Z;
  RATE_LIMIT_LOGIN_WINDOW : Z;
  ENVIRONMENT : string
}.

(** The defaults of class [Settings]. *)
Definition default_settings : Settings := {|
  PROJECT_NAME := "FastAPI Skeleton";
  API_V1_STR := "/api/v1";
  SECRET_KEY := "change-me";
  ACCESS_TOKEN_EXPIRES_MINUTES := 15;
  REFRESH_TOKEN_EXPIRES_DAYS := 7;
  JWT_ALGORITHM := "HS256";
  DATABASE_URL := "sqlite+aiosqlite:///./app.db";
  RATE_LIMIT_DEFAULT_LIMIT := 60;
  RATE_LIMIT_DEFAULT_WINDOW := 60;
  RATE_LIMIT_LOGIN_LIMIT := 5;
  RATE_LIMIT_LOGIN_WINDOW := 60;
  ENVIRONMENT := "dev"
|}.

(** ** Time

    A [datetime] is the number of microseconds since the epoch, in UTC; a
    [timedelta] is a number of microseconds. *)

Definition timedelta_minutes (m : Z) : Z := m * 60 * 1000000.
Definition timedelta_days (d : Z) : Z := d * 86400 * 1000000.

(** ** [app/core/security.py] *)

Module Security.
Import Jose.

(** The claim set of an access token. *)
Definition access_claims (subject role : string) (expire : Z) : claims :=
  <["sub" := JStr subject]> (<["exp" := JInt expire]>
    (<["role" := JStr role]> (<["typ" := JStr "access"]> ∅))).

(** The claim set of a refresh token. *)
Definition refresh_claims (sub jti : string) (expire : Z) : claims :=
  <["sub" := JStr sub]> (<["exp" := JInt expire]>
    (<["jti" := JStr jti]> (<["typ" := JStr "refresh"]> ∅))).


Section WithSettings.
Context (settings : Settings).

(** [create_access_token]; [now] is [datetime.now(timezone.utc)]. *)
Definition create_access_token (subject role : string) (now : Z) : token :=
  let expire := now + timedelta_minutes (ACCESS_TOKEN_EXPIRES_MINUTES settings) in
  let to_encode : claims :=
    <["sub" := JStr subject]> (<["exp" := JInt expire]>
      (<["role" := JStr role]> (<["typ" := JStr "access"]> ∅))) in
  encode to_encode (SECRET_KEY settings) (JWT_ALGORITHM settings).

(** [create_refresh_token]; [now] is [datetime.now(timezone.utc)] and
    [uuid4] is [str(uuid.uuid4())].  [jti or ...] takes the fresh
    identifier when [jti] is [None] or empty. *)
Definition create_refresh_token (user_id : Z) (jti : option string)
    (expires_days : option Z) (now : Z) (uuid4 : string)
  : token * string * Z :=
  let jti :=
    match jti with
    | Some j => if bool_decide (j = "") then uuid4 else j
    | None => uuid4
    end in
  let days :=
    match expires_days with
    | None => REFRESH_TOKEN_EXPIRES_DAYS settings
    | Some d => d
    end in
  let expire := now + timedelta_days days in
  let to_encode : claims :=
    <["sub" := JStr (PyStr.str user_id)]> (<["exp" := JInt expire]>
      (<["jti" := JStr jti]> (<["typ" := JStr "refresh"]> ∅))) in
  let token := encode to_encode (SECRET_KEY settings) (JWT_ALGORITHM settings) in
  (token, jti, expire).

(** [decode_token]; [now] is the clock read inside [jwt.decode]. *)
Definition decode_token (token : token) (now : Z) : res claims :=
  decode token (SECRET_KEY settings) [JWT_ALGORITHM settings] now.

End WithSettings.

End Security.

(** ** The persisted tables *)

(** Modelled from the spec: the [User] model of [app/db/models.py], which
    is not part of the source tree.  "Identity: {id: integer, email,
    password-hash (opaque), role: string, active: boolean}". *)
Module User.
Record t : Type := {
  id : Z;
  email : string;
  hashed_password : string;
  role : string;
  is_active : bool
}.
End User.

(** Modelled from the spec: the [RefreshToken] model of
    [app/db/models.py], which is not part of the source tree.  "columns
    user_id, jti (unique), expires_at, revoked".  The primary key of a row
    is its position in the table. *)
Module RefreshToken.
Record t : Type := {
  user_id : Z;
  jti : string;
  expires_at : Z;
  revoked : bool
}.

Definition revoke (rt : t) : t :=
  {| user_id := user_id rt; jti := jti rt;
     expires_at := expires_at rt; revoked := true |}.
End RefreshToken.

(** The database a session works on. *)
Record Db : Type := {
  users : list User.t;
  refresh_tokens : list RefreshToken.t
}.

Module Orm.

(** [Result.scalar_one_or_none()]. *)
Definition scalar_one_or_none {A} (rows : list A) : res (option A) :=
  match rows with
  | [] => Ok None
  | [row] => Ok (Some row)
  | _ => Raise MultipleResultsFound
  end.

(** [select(User).where(User.email == email)] *)
Definition select_user_by_email (db : Db) (email : string) : list User.t :=
  filter (λ u, User.email u = email) (users db).

(** [select(User).where(User.id == id)] *)
Definition select_user_by_id (db : Db) (id : Z) : list User.t :=
  filter (λ u, User.id u = id) (users db).

(** [select(RefreshToken).where(RefreshToken.jti == jti)]: the rows, each
    with its primary key. *)
Definition select_refresh_token_by_jti (db : Db) (jti : Jose.jvalue)
  : list (nat * RefreshToken.t) :=
  filter (λ row, Jose.JStr (RefreshToken.jti row.2) = jti)
         (imap pair (refresh_tokens db)).

(** Modelled from the spec: the unique constraint on [jti] ("jti
    (unique)") of the [RefreshToken] model in [app/db/models.py], which is
    not part of the source tree.  Under it
    [db.add(RefreshToken(...)); await db.commit()] appends the row, and
    raises for an identifier the table already has. *)
Definition add_refresh_token (db : Db) (rt : RefreshToken.t) : res Db :=
  if bool_decide (RefreshToken.jti rt ∈ RefreshToken.jti <$> refresh_tokens db)
  then Raise IntegrityError
  else Ok {| users := users db; refresh_tokens := refresh_tokens db ++ [rt] |}.

(** [rt.revoked = True; await db.commit()] for the row with primary key
    [pk]. *)
Definition set_revoked (db : Db) (pk : nat) (rt : RefreshToken.t) : Db :=
  {| users := users db;
     refresh_tokens := <[pk := RefreshToken.revoke rt]> (refresh_tokens db) |}.

End Orm.

(** ** [app/schemas/auth.py] *)

Record TokenPair : Type := {
  tp_access_token : Jose.token;
  tp_refresh_token : Jose.token
}.

Record AccessToken : Type := {
  at_access_token : Jose.token
}.

(** ** [app/api/routes/auth.py] *)

(** The bodies of the routes [login], [refresh] and [logout]; the
    rate-limit dependency that each route declares is [RateLimit], above.

    The failures of the handlers, by the name the design gives them. *)
Definition AuthenticationFailed : exn := HTTPException 401 "Invalid credentials".
Definition InvalidRefreshToken : exn := HTTPException 401 "Invalid refresh token".
Definition InvalidTokenType : exn := HTTPException 401 "Invalid token type".
Definition InvalidTokenPayload : exn := HTTPException 401 "Invalid token payload".
Definition TokenRevoked : exn := HTTPException 401 "Token revoked".
Definition TokenExpired : exn := HTTPException 401 "Token expired".
Definition UserInactiveOrMissing : exn := HTTPException 401 "User inactive or not found".
Definition UnknownToken : exn := HTTPException 401 "Unknown token".

Module Auth.
Import Jose Security Orm.

(** Truth value of [data.get(k)]: [None], the empty string and zero are
    false. *)
Definition truthy (v : option jvalue) : bool :=
  match v with
  | None => false
  | Some (JStr s) => negb (bool_decide (s = ""))
  | Some (JInt z) => negb (z =? 0)
  end.

(** [int(sub)] on a claim value. *)
Definition int_of_jvalue (v : option jvalue) : res Z :=
  match v with
  | Some (JStr s) => PyStr.int s
  | Some (JInt z) => Ok z
  | None => Raise ValueError
  end.

(** [try: ... except Exception: raise e] *)
Definition try_except {A} (m : res A) (e : exn) : res A :=
  match m with
  | Ok a => Ok a
  | Raise _ => Raise e
  end.

Section Handlers.
Context (settings : Settings).
(** [verify_password], the opaque verification primitive of the
    password-hash library. *)
Context (verify_password : string -> string -> bool).

(** [login]: [now_access] and [now_refresh] are the clock readings of
    the two token constructors and [uuid4] the fresh identifier. *)
Definition login (db : Db) (email password : string)
    (now_access now_refresh : Z) (uuid4 : string)
  : res (TokenPair * Db) :=
  user ← scalar_one_or_none (select_user_by_email db email);
  match user with
  | None => Raise AuthenticationFailed
  | Some user =>
      if negb (verify_password password (User.hashed_password user))
      then Raise AuthenticationFailed
      else
        let access_token :=
          create_access_token settings (PyStr.str (User.id user))
                              (User.role user) now_access in
        let '(refresh_token, jti, exp) :=
          create_refresh_token settings (User.id user) None None
                               now_refresh uuid4 in
        db ← add_refresh_token db
               {| RefreshToken.user_id := User.id user;
                  RefreshToken.jti := jti;
                  RefreshToken.expires_at := exp;
                  RefreshToken.revoked := false |};
        Ok ({| tp_access_token := access_token;
               tp_refresh_token := refresh_token |}, db)
  end.

(** [refresh]: [now_decode] is the clock read by [decode_token],
    [now_check] is [datetime.utcnow()] of the expiry test and
    [now_issue] the clock read by [create_access_token]. *)
Definition refresh (db : Db) (refresh_token : token)
    (now_decode now_check now_issue : Z)
  : res (AccessToken * Db) :=
  data ← try_except (decode_token settings refresh_token now_decode)
                    InvalidRefreshToken;
  if bool_decide (data !! "typ" ≠ Some (JStr "refresh"))
  then Raise InvalidTokenType
  else
    let jti := data !! "jti" in
    let sub := data !! "sub" in
    if negb (truthy jti) || negb (truthy sub)
    then Raise InvalidTokenPayload
    else
      rt ← scalar_one_or_none
             (select_refresh_token_by_jti db (default (JStr "") jti));
      match rt with
      | None => Raise TokenRevoked
      | Some (_, rt) =>
          if RefreshToken.revoked rt then Raise TokenRevoked
          else if RefreshToken.expires_at rt <=? now_check
          then Raise TokenExpired
          else
            uid ← int_of_jvalue sub;
            user ← scalar_one_or_none (select_user_by_id db uid);
            match user with
            | None => Raise UserInactiveOrMissing
            | Some user =>
                if negb (User.is_active user)
                then Raise UserInactiveOrMissing
                else
                  let token :=
                    create_access_token settings (PyStr.str (User.id user))
                                        (User.role user) now_issue in
                  Ok ({| at_access_token := token |}, db)
            end
      end.

(** [logout]: [now_decode] is the clock read by [decode_token]. *)
Definition logout (db : Db) (refresh_token : token) (now_decode : Z)
  : res (string * Db) :=
  data ← try_except (decode_token settings refresh_token now_decode)
                    InvalidRefreshToken;
  if bool_decide (data !! "typ" ≠ Some (JStr "refresh"))
  then Raise InvalidTokenType
  else
    let jti := data !! "jti" in
    if negb (truthy jti)
    then Raise InvalidTokenPayload
    else
      rt ← scalar_one_or_none
             (select_refresh_token_by_jti db (default (JStr "") jti));
      match rt with
      | None => Raise UnknownToken
      | Some (pk, rt) => Ok ("Logged out", set_revoked db pk rt)
      end.

(** One request to the three handlers, and the database it leaves.  A
    request that raises commits nothing. *)
Inductive request : Type :=
  | Login (email password : string) (now_access now_refresh : Z)
          (uuid4 : string)
  | Refresh (refresh_token : token) (now_decode now_check now_issue : Z)
  | Logout (refresh_token : token) (now_decode : Z).

Definition db_after {A} (db : Db) (r : res (A * Db)) : Db :=
  match r with
  | Ok (_, db') => db'
  | Raise _ => db
  end.

Definition handle (db : Db) (rq : request) : Db :=
  match rq with
  | Login e p na nr u => db_after db (login db e p na nr u)
  | Refresh t nd nc ni => db_after db (refresh db t nd nc ni)
  | Logout t nd => db_after db (logout db t nd)
  end.

Definition handle_all (db : Db) (rqs : list request) : Db :=
  foldl handle db rqs.

End Handlers.

End Auth.

(** ** The request, and the string operations on its headers *)

Module PyText.

(** [c.isspace()] for a character of a header value (code points 0 to
    255): the ASCII blanks, the separators 28 to 31, NEL and NBSP. *)
Definition isspace (c : ascii) : bool :=
  let n := N_of_ascii c in
  ((9 <=? n) && (n <=? 13) || (28 <=? n) && (n <=? 32)
   || (n =? 133) || (n =? 160))%N.

(** [s.split(sep)[0]]: the part of [s] before the first [sep]. *)
Fixpoint split_first (sep : ascii) (s : string) : string :=
  match s with
  | EmptyString => EmptyString
  | String c s' =>
      if Ascii.eqb c sep then EmptyString else String c (split_first sep s')
  end.

Fixpoint lstrip (s : string) : string :=
  match s with
  | EmptyString => EmptyString
  | String c s' => if isspace c then lstrip s' else s
  end.

Fixpoint rstrip (s : string) : string :=
  match s with
  | EmptyString => EmptyString
  | String c s' =>
      match rstrip s' with
      | EmptyString => if isspace c then EmptyString else String c EmptyString
      | r => String c r
      end
  end.

(** [s.strip()] *)
Definition strip (s : string) : string := rstrip (lstrip s).

End PyText.

(** What the dependencies read and write of a [Request]:
    [request.state.user_id] (absent until [get_current_user] sets it), the
    [x-forwarded-for] header and [request.client.host]. *)
Record Request : Type := {
  state_user_id : option Z;
  x_forwarded_for : option string;
  client_host : option string
}.

(** ** [rate_limit] of [app/core/rate_limit.py] *)

Module RateLimitDep.
Import PyNum RateLimit.

Definition RateLimited : exn := HTTPException 429 "Rate limit exceeded".

(** The key of the bucket of a request: [f"{bucket_id}:{suffix}"]. *)
Definition bucket_key (bucket_id : string) (request : Request) : string :=
  let uid := state_user_id request in
  let ip :=
    PyText.strip
      (PyText.split_first ","%char
         (default (default "unknown" (client_host request))
                  (x_forwarded_for request))) in
  let suffix :=
    match uid with
    | Some uid => PyStr.str uid
    | None => ip
    end in
  bucket_id +:+ ":" +:+ suffix.

(** The [dependency] that [rate_limit(bucket_id, limit, window)] returns,
    on the module's [store].  [now_init] is the clock read when a bucket is
    created and [now] the one read by [allow].  The bucket that [allow]
    updates is the object held by the store, so the store after the call
    has the updated bucket under the key, also when the request is
    refused. *)
Definition rate_limit (bucket_id : string) (limit window : Z)
    (store : gmap string TokenBucket) (request : Request)
    (now_init now : float) : gmap string TokenBucket * res unit :=
  let key := bucket_key bucket_id request in
  match get_bucket store key limit window now_init with
  | Raise e => (store, Raise e)
  | Ok (bucket, store) =>
      match allow bucket now 1 with
      | Raise e => (store, Raise e)
      | Ok (allowed, bucket) =>
          let store := <[key := bucket]> store in
          if negb allowed then (store, Raise RateLimited)
          else (store, Ok ())
      end
  end.

(** [n] requests of one client in a row, all at the clock reading [now]:
    the store after them and their outcomes. *)
Fixpoint rate_limit_repeat (n : nat) (bucket_id : string) (limit window : Z)
    (store : gmap string TokenBucket) (request : Request) (now : float)
  : gmap string TokenBucket * list (res unit) :=
  match n with
  | O => (store, [])
  | S n =>
      let '(store, r) := rate_limit bucket_id limit window store request now now in
      let '(store, rs) :=
        rate_limit_repeat n bucket_id limit window store request now in
      (store, r :: rs)
  end.

End RateLimitDep.

(** ** [app/api/deps.py] and [app/api/routes/users.py] *)

Definition NotAuthenticated : exn := HTTPException 401 "Not authenticated".
Definition InvalidAccessToken : exn := HTTPException 401 "Invalid token".
Definition InsufficientRole : exn := HTTPException 403 "Insufficient permissions".

Module Deps.
Import Jose Security Orm Auth.

Section WithSettings.
Context (settings : Settings).

(** [get_current_user]: [credentials] is the bearer token of the request,
    if it has one, and [now] the clock read by [decode_token].  The user
    and the request with [state.user_id] set. *)
Definition get_current_user (request : Request) (db : Db)
    (credentials : option token) (now : Z) : res (User.t * Request) :=
  match credentials with
  | None => Raise NotAuthenticated
  | Some credentials =>
      payload ← try_except (decode_token settings credentials now)
                           InvalidAccessToken;
      if bool_decide (payload !! "typ" ≠ Some (JStr "access"))
      then Raise InvalidTokenType
      else
        let user_id := payload !! "sub" in
        if negb (truthy user_id)
        then Raise InvalidTokenPayload
        else
          uid ← int_of_jvalue user_id;
          user ← scalar_one_or_none (select_user_by_id db uid);
          match user with
          | None => Raise UserInactiveOrMissing
          | Some user =>
              if negb (User.is_active user)
              then Raise UserInactiveOrMissing
              else
                Ok (user,
                    {| state_user_id := Some (User.id user);
                       x_forwarded_for := x_forwarded_for request;
                       client_host := client_host request |})
          end
  end.

(** The [checker] that [require_roles] returns for [roles], after the
    [get_current_user] it depends on. *)
Definition require_roles (roles : list string) (request : Request) (db : Db)
    (credentials : option token) (now : Z) : res (User.t * Request) :=
  '(user, request) ← get_current_user request db credentials now;
  if bool_decide (User.role user ∉ roles)
  then Raise InsufficientRole
  else Ok (user, request).

(** [GET /users/me] *)
Definition me (request : Request) (db : Db) (credentials : option token)
    (now : Z) : res User.t :=
  '(user, _) ← get_current_user request db credentials now;
  Ok user.

(** [GET /users/admin/secret] *)
Definition admin_secret (request : Request) (db : Db)
    (credentials : option token) (now : Z) : res (list (string * string)) :=
  _ ← require_roles ["admin"] request db credentials now;
  Ok [("secret", "ok")].

End WithSettings.

End Deps.

(** ** Vocabulary of the properties *)

(** The claim set a token carries, read without verification. *)
Definition unverified_claims (t : Jose.token) : option Jose.claims :=
  match t with
  | Jose.Opaque _ => None
  | Jose.Jws _ payload _ => Some payload
  end.

(** [kept l l']: every row of the table [l] is still in [l'] under the
    same primary key, with the same identifier, owner and expiry, and
    revoked if it was. *)
Definition kept (l l' : list RefreshToken.t) : Prop :=
  forall pk rt, l !! pk = Some rt ->
    exists rt', l' !! pk = Some rt' /\
      RefreshToken.jti rt' = RefreshToken.jti rt /\
      RefreshToken.user_id rt' = RefreshToken.user_id rt /\
      RefreshToken.expires_at rt' = RefreshToken.expires_at rt /\
      (RefreshToken.revoked rt = true -> RefreshToken.revoked rt' = true).

(** [revoked_one db j]: exactly one row of the table has the identifier
    [j], and it is revoked. *)
Definition revoked_one (db : Db) (j : Jose.jvalue) : Prop :=
  exists pk rt,
    Orm.select_refresh_token_by_jti db j = [(pk, rt)] /\
    RefreshToken.revoked rt = true.

(** A stand-in for the password verification primitive in the closed
    examples: the hash of [p] is ["bcrypt$" ++ p]. *)
Definition example_verify (plain_password hashed_password : string) : bool :=
  bool_decide (hashed_password = "bcrypt$" +:+ plain_password).

Definition example_user : User.t :=
  {| User.id := 1; User.email := "ann@example.org";
     User.hashed_password := "bcrypt$s3cret"; User.role := "admin";
     User.is_active := true |}.

Definition example_db : Db := {| users := [example_user]; refresh_tokens := [] |}.

(** The refresh token that [example_user] gets by logging in at time 0,
    with the default settings, and the database after that login, before
    and after the logout with that token. *)
Definition example_refresh_token : Jose.token :=
  (Security.create_refresh_token default_settings 1 None None 0 "7c9e").1.1.

Definition example_row (revoked : bool) : RefreshToken.t :=
  {| RefreshToken.user_id := 1; RefreshToken.jti := "7c9e";
     RefreshToken.expires_at := timedelta_days 7;
     RefreshToken.revoked := revoked |}.

Definition example_db_logged_in : Db :=
  {| users := [example_user]; refresh_tokens := [example_row false] |}.

Definition example_db_logged_out : Db :=
  {| users := [example_user]; refresh_tokens := [example_row true] |}.

(** One second after the seven days of the refresh token. *)
Definition example_late : Z := timedelta_days 7 + 1000000.

(** A second session of [example_user], opened two seconds after the
    first, and the database with both sessions. *)
Definition example_refresh_token_2 : Jose.token :=
  (Security.create_refresh_token default_settings 1 None None 2000000 "b2d1").1.1.

Definition example_db_two_sessions (revoked : bool) : Db :=
  {| users := [example_user];
     refresh_tokens :=
       [example_row revoked;
        {| RefreshToken.user_id := 1; RefreshToken.jti := "b2d1";
           RefreshToken.expires_at := 2000000 + timedelta_days 7;
           RefreshToken.revoked := false |}] |}.

(** The database after the login when the user has been deactivated. *)
Definition example_db_deactivated : Db :=
  {| users := [{| User.id := 1; User.email := "ann@example.org";
                  User.hashed_password := "bcrypt$s3cret";
                  User.role := "admin"; User.is_active := false |}];
     refresh_tokens := [example_row false] |}.

(** * Properties *)

(** ** The rate limiter *)

Section RateLimitFacts.
Import PyNum RateLimit.

Lemma fsub_diag (t : float) : is_finite t = true -> fsub t t = S754_zero false.
Proof.
  destruct t as [s| | |s m e]; try discriminate; intros _.
  - by destruct s.
  - unfold fsub, SFsub. by rewrite Z.sub_diag.
Qed.

Lemma fsub_finite_l (t1 t0 : float) :
  is_finite t0 = true -> is_finite (fsub t1 t0) = true -> is_finite t1 = true.
Proof. destruct t1 as [| [] | |], t0 as [| [] | |]; done. Qed.

Lemma fmul_zero_l (r : float) :
  is_finite r = true -> is_zero (fmul (S754_zero false) r) = true.
Proof. by destruct r. Qed.

(** A call at the instant of the last refill adds nothing: it only
    consumes. *)
Lemma allow_same_instant (c : Z) (tk : num) (r t : float) (cost : Z) :
  is_finite t = true ->
  is_finite r = true ->
  allow {| capacity := c; tokens := tk; refill_rate := r; last_refill := t |}
        t cost =
    if geb tk (PyInt cost) then
      tk' ← sub tk (PyInt cost);
      Ok (true, {| capacity := c; tokens := tk'; refill_rate := r;
                   last_refill := t |})
    else
      Ok (false, {| capacity := c; tokens := tk; refill_rate := r;
                    last_refill := t |}).
Proof.
  intros Hnow Hrate. unfold allow. cbn [last_refill refill_rate].
  rewrite fsub_diag by done.
  pose proof (fmul_zero_l _ Hrate) as Hz.
  destruct (fmul (S754_zero false) r); try discriminate.
  reflexivity.
Qed.

Lemma allow_all_cons (b b1 b2 : TokenBucket) now nows cost a answers :
  allow b now cost = Ok (a, b1) ->
  allow_all b1 nows cost = Ok (answers, b2) ->
  allow_all b (now :: nows) cost = Ok (a :: answers, b2).
Proof. intros H1 H2. cbn [allow_all]. by rewrite H1; cbn; rewrite H2. Qed.

Lemma float_of_int_12 :
  float_of_int 12 = Ok (S754_finite false 6755399441055744 (-49)).
Proof. vm_compute. reflexivity. Qed.

(** The comparison [x != x] of equal floats that are not NaN is false. *)
Lemma SFcompare_refl (x : float) : x <> S754_nan -> SFcompare x x = Some Eq.
Proof.
  destruct x as [[]|[]| |[] m e]; try done; intros _; cbn.
  all: rewrite Z.compare_refl, ?Pos.compare_cont_refl; done.
Qed.

End RateLimitFacts.

Section RateLimitClaims.
Import PyNum RateLimit.

Local Ltac same_instant :=
  eapply allow_all_cons;
  [ rewrite allow_same_instant by done; reflexivity | ].

(** C4.  A bucket created for capacity 5 and window 60 starts full; five
    [allow()] calls of cost 1 at the instant [t0] of its creation are
    granted and the sixth is refused; at an instant [t1] that is exactly
    12 time units later, one further call is granted and the next one at
    [t1] is refused. *)
Theorem bucket_5_per_60_scenario (store : gmap string TokenBucket)
    (key : string) (t0 t1 : float) :
  store !! key = None ->
  is_finite t0 = true ->
  Ok (fsub t1 t0) = float_of_int 12 ->
  exists b store' b',
    get_bucket store key 5 60 t0 = Ok (b, store') /\
    tokens b = PyInt (capacity b) /\ capacity b = 5 /\
    allow_all b [t0; t0; t0; t0; t0; t0; t1; t1] 1
    = Ok ([true; true; true; true; true; false; true; false], b').
Proof.
  intros Hfresh Ht0 Hadv.
  rewrite float_of_int_12 in Hadv. injection Hadv as Hadv.
  assert (Ht1 : is_finite t1 = true).
  { apply (fsub_finite_l t1 t0); [done|]. by rewrite Hadv. }
  unfold get_bucket. rewrite Hfresh.
  set (w := float_of_int 60). vm_compute in w. subst w.
  cbn [mbind res_bind].
  set (w := truediv _ _). vm_compute in w. subst w.
  cbn [mbind res_bind].
  do 3 eexists. split; [reflexivity|]. do 2 (split; [reflexivity|]).
  unfold TokenBucket_init.
  do 6 same_instant.
  eapply allow_all_cons.
  { unfold allow. cbn [last_refill refill_rate tokens capacity].
    rewrite Hadv. vm_compute. reflexivity. }
  same_instant.
  reflexivity.
Qed.

(** The scenario at the clock readings 1000.0 and 1012.0. *)
Lemma bucket_5_per_60_scenario_witness :
  exists b store' b',
    get_bucket ∅ "login:10.0.0.1" 5 60
               (S754_finite false 8796093022208000 (-43)) = Ok (b, store') /\
    tokens b = PyInt (capacity b) /\ capacity b = 5 /\
    allow_all b (replicate 6 (S754_finite false 8796093022208000 (-43))
                 ++ replicate 2 (S754_finite false 8901646138474496 (-43))) 1
    = Ok ([true; true; true; true; true; false; true; false], b').
Proof.
  apply (bucket_5_per_60_scenario ∅ "login:10.0.0.1"
           (S754_finite false 8796093022208000 (-43))
           (S754_finite false 8901646138474496 (-43))).
  - reflexivity.
  - reflexivity.
  - vm_compute. reflexivity.
Defined.




End RateLimitClaims.

(** ** The token codec *)

Import Jose Security Orm Auth.

Section CodecFacts.
Context (settings : Settings).

Lemma decode_encode (payload : claims) (key alg : string) (now : Z) :
  decode (encode payload key alg) key [alg] now =
    match payload !! "exp" with
    | None => Ok payload
    | Some (JInt exp) =>
        if exp <=? now then Raise ExpiredSignatureError else Ok payload
    | Some (JStr _) => Raise JWTError
    end.
Proof.
  unfold decode, encode.
  rewrite bool_decide_eq_true_2 by apply list_elem_of_here.
  by rewrite bool_decide_eq_true_2.
Qed.

(** A successful [decode] returns the claim set the token carries,
    whatever the clock reading. *)
Lemma decode_token_payload (t : token) (now : Z) (data : claims) :
  decode_token settings t now = Ok data ->
  exists alg sig, t = Jws alg data sig.
Proof.
  unfold decode_token, decode. destruct t as [raw|alg payload sig]; [done|].
  destruct (_ && _); [|done].
  destruct (payload !! "exp") as [[s|exp]|]; try done.
  - destruct (exp <=? now); [done|]. intros [= <-]. eauto.
  - intros [= <-]. eauto.
Qed.

Lemma decode_token_same_claims (t : token) (n1 n2 : Z) (d1 d2 : claims) :
  decode_token settings t n1 = Ok d1 ->
  decode_token settings t n2 = Ok d2 ->
  d1 = d2.
Proof.
  intros (a1 & s1 & H1)%decode_token_payload (a2 & s2 & H2)%decode_token_payload.
  congruence.
Qed.

Lemma decode_access_token (subject role : string) (issued now : Z) :
  decode_token settings (create_access_token settings subject role issued) now =
    let expire := issued + timedelta_minutes (ACCESS_TOKEN_EXPIRES_MINUTES settings) in
    if expire <=? now then Raise ExpiredSignatureError
    else Ok (access_claims subject role expire).
Proof.
  unfold decode_token, create_access_token. rewrite decode_encode.
  by rewrite lookup_insert_ne, lookup_insert_eq.
Qed.

Lemma decode_refresh_token (user_id : Z) (jti : option string)
    (expires_days : option Z) (issued : Z) (uuid4 : string) (now : Z) :
  let '(t, j, expire) :=
    create_refresh_token settings user_id jti expires_days issued uuid4 in
  decode_token settings t now =
    if expire <=? now then Raise ExpiredSignatureError
    else Ok (refresh_claims (PyStr.str user_id) j expire).
Proof.
  unfold decode_token, create_refresh_token. rewrite decode_encode.
  by rewrite lookup_insert_ne, lookup_insert_eq.
Qed.

(** The identifier of an issued refresh token is never empty, provided
    the fresh identifier is not. *)
Lemma create_refresh_token_jti (user_id : Z) (jti : option string)
    (expires_days : option Z) (issued : Z) (uuid4 : string) :
  uuid4 <> "" ->
  (create_refresh_token settings user_id jti expires_days issued uuid4).1.2 <> "".
Proof.
  intros Hu. unfold create_refresh_token. cbn.
  destruct jti as [j|]; [|done]. by case_bool_decide.
Qed.

(** C2.  The token issued for a subject and a role by
    [create_access_token] decodes, at every clock reading before its
    expiry, to claims with that subject, that role and the type
    "access". *)
Theorem decode_access_roundtrip (subject role : string) (issued now : Z) :
  now < issued + timedelta_minutes (ACCESS_TOKEN_EXPIRES_MINUTES settings) ->
  exists data,
    decode_token settings (create_access_token settings subject role issued) now
    = Ok data /\
    data !! "sub" = Some (JStr subject) /\
    data !! "role" = Some (JStr role) /\
    data !! "typ" = Some (JStr "access").
Proof.
  intros Hnow. rewrite decode_access_token. cbn zeta.
  rewrite (proj2 (Z.leb_gt _ _)) by done.
  eexists. split; [reflexivity|]. unfold access_claims.
  split_and!; by simplify_map_eq.
Qed.


End CodecFacts.

(** A clock reading one minute after issue, with the default settings. *)
Lemma decode_access_roundtrip_witness :
  exists data,
    decode_token default_settings
      (create_access_token default_settings "1" "admin" 0) 60000000 = Ok data /\
    data !! "sub" = Some (JStr "1") /\
    data !! "role" = Some (JStr "admin") /\
    data !! "typ" = Some (JStr "access").
Proof.
  apply (decode_access_roundtrip default_settings "1" "admin" 0 60000000).
  reflexivity.
Defined.


(** ** The handlers *)

Section AuthFacts.
Context (settings : Settings).
Context (verify_password : string -> string -> bool).

Lemma scalar_one_or_none_Some {A} (rows : list A) (x : A) :
  scalar_one_or_none rows = Ok (Some x) <-> rows = [x].
Proof.
  destruct rows as [|y [|z rows]]; cbn; split; intros H; try done.
  all: by injection H as ->.
Qed.

Lemma scalar_one_or_none_None {A} (rows : list A) :
  scalar_one_or_none rows = Ok None <-> rows = [].
Proof. destruct rows as [|y [|z rows]]; cbn; split; intros H; done. Qed.

Lemma elem_of_select (db : Db) (j : jvalue) (pk : nat) (rt : RefreshToken.t) :
  (pk, rt) ∈ select_refresh_token_by_jti db j <->
  refresh_tokens db !! pk = Some rt /\ JStr (RefreshToken.jti rt) = j.
Proof.
  unfold select_refresh_token_by_jti.
  rewrite list_elem_of_filter, elem_of_lookup_imap. cbn. split.
  - intros (Hj & i & y & [= -> ->] & Hl). done.
  - intros (Hl & Hj). eauto.
Qed.

Lemma select_singleton (db : Db) (j : jvalue) (pk : nat) (rt : RefreshToken.t) :
  select_refresh_token_by_jti db j = [(pk, rt)] ->
  refresh_tokens db !! pk = Some rt /\ JStr (RefreshToken.jti rt) = j.
Proof. intros H. apply elem_of_select. rewrite H. apply list_elem_of_here. Qed.

(** What [refresh] does once the token has passed the decoding and the
    checks on its claims. *)
Lemma refresh_checked (db : Db) (t : token) (nd nc ni : Z) (data : claims) :
  decode_token settings t nd = Ok data ->
  data !! "typ" = Some (JStr "refresh") ->
  truthy (data !! "jti") = true ->
  truthy (data !! "sub") = true ->
  refresh settings db t nd nc ni =
    rt ← scalar_one_or_none
           (select_refresh_token_by_jti db (default (JStr "") (data !! "jti")));
    match rt with
    | None => Raise TokenRevoked
    | Some (_, rt) =>
        if RefreshToken.revoked rt then Raise TokenRevoked
        else if RefreshToken.expires_at rt <=? nc then Raise TokenExpired
        else
          uid ← int_of_jvalue (data !! "sub");
          user ← scalar_one_or_none (select_user_by_id db uid);
          match user with
          | None => Raise UserInactiveOrMissing
          | Some user =>
              if negb (User.is_active user) then Raise UserInactiveOrMissing
              else
                Ok ({| at_access_token :=
                         create_access_token settings (PyStr.str (User.id user))
                                             (User.role user) ni |}, db)
          end
    end.
Proof.
  intros Hd Htyp Hjti Hsub. unfold refresh. rewrite Hd. cbn [try_except mbind res_bind].
  rewrite bool_decide_eq_false_2 by (intros H; by apply H).
  by rewrite Hjti, Hsub.
Qed.

(** The same for [logout]. *)
Lemma logout_checked (db : Db) (t : token) (nd : Z) (data : claims) :
  decode_token settings t nd = Ok data ->
  data !! "typ" = Some (JStr "refresh") ->
  truthy (data !! "jti") = true ->
  logout settings db t nd =
    rt ← scalar_one_or_none
           (select_refresh_token_by_jti db (default (JStr "") (data !! "jti")));
    match rt with
    | None => Raise UnknownToken
    | Some (pk, rt) => Ok ("Logged out", set_revoked db pk rt)
    end.
Proof.
  intros Hd Htyp Hjti. unfold logout. rewrite Hd. cbn [try_except mbind res_bind].
  rewrite bool_decide_eq_false_2 by (intros H; by apply H).
  by rewrite Hjti.
Qed.

(** A token that gets through [refresh] or [logout] up to the look-up has
    passed the decoding and the checks. *)
Lemma refresh_ok_checked (db db' : Db) (t : token) (nd nc ni : Z) (a : AccessToken) :
  refresh settings db t nd nc ni = Ok (a, db') ->
  exists data,
    decode_token settings t nd = Ok data /\
    data !! "typ" = Some (JStr "refresh") /\
    truthy (data !! "jti") = true /\
    truthy (data !! "sub") = true.
Proof.
  unfold refresh. destruct (decode_token settings t nd) as [data|e]; [|done].
  cbn [try_except mbind res_bind]. case_bool_decide as Htyp; [done|].
  destruct (truthy (data !! "jti")) eqn:Hj; [|done].
  destruct (truthy (data !! "sub")) eqn:Hs; [|done].
  intros _. exists data. split_and!; try done.
  all: by destruct (decide (data !! "typ" = Some (JStr "refresh"))).
Qed.

Lemma logout_ok_checked (db db' : Db) (t : token) (nd : Z) (msg : string) :
  logout settings db t nd = Ok (msg, db') ->
  exists data,
    decode_token settings t nd = Ok data /\
    data !! "typ" = Some (JStr "refresh") /\
    truthy (data !! "jti") = true.
Proof.
  unfold logout. destruct (decode_token settings t nd) as [data|e]; [|done].
  cbn [try_except mbind res_bind]. case_bool_decide as Htyp; [done|].
  destruct (truthy (data !! "jti")) eqn:Hj; [|done].
  intros _. exists data. split_and!; try done.
  all: by destruct (decide (data !! "typ" = Some (JStr "refresh"))).
Qed.

(** [refresh] writes nothing. *)
Lemma refresh_db_unchanged (db db' : Db) (t : token) (nd nc ni : Z) (a : AccessToken) :
  refresh settings db t nd nc ni = Ok (a, db') -> db' = db.
Proof.
  intros H. destruct (refresh_ok_checked _ _ _ _ _ _ _ H) as (data & Hd & Ht & Hj & Hs).
  rewrite (refresh_checked db t nd nc ni data) in H by done.
  destruct (scalar_one_or_none _) as [[[pk rt]|]|]; cbn in H; try done.
  destruct (RefreshToken.revoked rt); [done|].
  destruct (_ <=? _); [done|].
  destruct (int_of_jvalue _) as [uid|]; cbn in H; [|done].
  destruct (scalar_one_or_none _) as [[user|]|]; cbn in H; try done.
  destruct (negb _); [done|]. by injection H as _ <-.
Qed.

(** A successful [logout] has found exactly one row and revoked it. *)
Lemma logout_ok_inv (db db' : Db) (t : token) (nd : Z) (msg : string) :
  logout settings db t nd = Ok (msg, db') ->
  exists data pk rt,
    decode_token settings t nd = Ok data /\
    data !! "typ" = Some (JStr "refresh") /\
    truthy (data !! "jti") = true /\
    select_refresh_token_by_jti db (default (JStr "") (data !! "jti")) = [(pk, rt)] /\
    db' = set_revoked db pk rt.
Proof.
  intros H. destruct (logout_ok_checked _ _ _ _ _ H) as (data & Hd & Ht & Hj).
  rewrite (logout_checked db t nd data) in H by done.
  destruct (scalar_one_or_none _) as [[[pk rt]|]|] eqn:Hsel; cbn in H; try done.
  apply scalar_one_or_none_Some in Hsel. injection H as _ <-.
  exists data, pk, rt. done.
Qed.

(** A successful [login] has found exactly one user, verified the
    password and appended one row, not revoked, under a new identifier. *)
Lemma login_ok_inv (db db' : Db) (email password : string) (na nr : Z)
    (uuid4 : string) (pair : TokenPair) :
  login settings verify_password db email password na nr uuid4 = Ok (pair, db') ->
  exists user,
    select_user_by_email db email = [user] /\
    verify_password password (User.hashed_password user) = true /\
    let '(t, jti, exp) :=
      create_refresh_token settings (User.id user) None None nr uuid4 in
    let row := {| RefreshToken.user_id := User.id user;
                  RefreshToken.jti := jti;
                  RefreshToken.expires_at := exp;
                  RefreshToken.revoked := false |} in
    (jti ∉ RefreshToken.jti <$> refresh_tokens db) /\
    db' = {| users := users db; refresh_tokens := refresh_tokens db ++ [row] |} /\
    pair = {| tp_access_token :=
                create_access_token settings (PyStr.str (User.id user))
                                    (User.role user) na;
              tp_refresh_token := t |}.
Proof.
  unfold login.
  destruct (scalar_one_or_none _) as [[user|]|] eqn:Hsel; cbn [mbind res_bind]; try done.
  apply scalar_one_or_none_Some in Hsel.
  destruct (verify_password _ _) eqn:Hv; cbn [negb]; [|done].
  unfold create_refresh_token, add_refresh_token. cbn [RefreshToken.jti].
  case_bool_decide as Hdup; cbn [mbind res_bind]; [done|].
  intros [= <- <-]. exists user. done.
Qed.

Lemma kept_refl (l : list RefreshToken.t) : kept l l.
Proof. intros pk rt H. exists rt. done. Qed.

Lemma kept_trans (l1 l2 l3 : list RefreshToken.t) :
  kept l1 l2 -> kept l2 l3 -> kept l1 l3.
Proof.
  intros H12 H23 pk rt H1.
  destruct (H12 _ _ H1) as (rt2 & H2 & Hj2 & Hu2 & He2 & Hr2).
  destruct (H23 _ _ H2) as (rt3 & H3 & Hj3 & Hu3 & He3 & Hr3).
  exists rt3. split_and!; [done|congruence..|auto].
Qed.

Lemma kept_app (l : list RefreshToken.t) (row : RefreshToken.t) : kept l (l ++ [row]).
Proof.
  intros pk rt H. exists rt. split_and!; try done.
  by apply lookup_app_l_Some.
Qed.

Lemma kept_revoke (l : list RefreshToken.t) (pk : nat) (rt : RefreshToken.t) :
  l !! pk = Some rt -> kept l (<[pk := RefreshToken.revoke rt]> l).
Proof.
  intros Hpk i r Hi. destruct (decide (i = pk)) as [->|Hne].
  - exists (RefreshToken.revoke rt). rewrite list_lookup_insert_eq.
    + assert (r = rt) as -> by congruence. done.
    + by eapply lookup_lt_Some.
  - exists r. by rewrite list_lookup_insert_ne.
Qed.

(** Every request keeps the rows of the table. *)
Lemma handle_kept (db : Db) (rq : request) :
  kept (refresh_tokens db)
       (refresh_tokens (handle settings verify_password db rq)).
Proof.
  destruct rq as [e p na nr u|t nd nc ni|t nd]; cbn [handle].
  - destruct (login _ _ _ _ _ _ _ _) as [[pair db']|err] eqn:H; cbn; [|apply kept_refl].
    apply login_ok_inv in H as (user & _ & _ & H).
    unfold create_refresh_token in H. destruct H as (_ & -> & _). apply kept_app.
  - destruct (refresh _ _ _ _ _ _) as [[a db']|err] eqn:H; cbn; [|apply kept_refl].
    apply refresh_db_unchanged in H as ->. apply kept_refl.
  - destruct (logout _ _ _ _) as [[msg db']|err] eqn:H; cbn; [|apply kept_refl].
    apply logout_ok_inv in H as (data & pk & rt & _ & _ & _ & Hsel & ->).
    apply select_singleton in Hsel as [Hpk _]. by apply kept_revoke.
Qed.

Lemma handle_all_kept (db : Db) (rqs : list request) :
  kept (refresh_tokens db)
       (refresh_tokens (handle_all settings verify_password db rqs)).
Proof.
  revert db. induction rqs as [|rq rqs IH]; intros db; cbn.
  - apply kept_refl.
  - eapply kept_trans; [apply handle_kept | apply IH].
Qed.

(** C6.  Through every sequence of login, refresh and logout requests, a
    refresh record keeps its identifier, and once revoked it stays
    revoked. *)
Theorem refresh_record_jti_fixed_revoked_monotone (db : Db)
    (rqs : list request) (pk : nat) (rt : RefreshToken.t) :
  refresh_tokens db !! pk = Some rt ->
  exists rt',
    refresh_tokens (handle_all settings verify_password db rqs) !! pk = Some rt' /\
    RefreshToken.jti rt' = RefreshToken.jti rt /\
    (RefreshToken.revoked rt = true -> RefreshToken.revoked rt' = true).
Proof.
  intros H. destruct (handle_all_kept db rqs pk rt H) as (rt' & H' & Hj & _ & _ & Hr).
  exists rt'. done.
Qed.

(** An issued refresh token presented at or after its signed expiry never
    reaches the look-up: the expiry error of the decoding step is replaced
    by the invalid-token failure. *)
Lemma refresh_expired_invalid (db : Db) (user_id : Z) (jti : option string)
    (expires_days : option Z) (issued : Z) (uuid4 : string) (nd nc ni : Z) :
  let issue :=
    create_refresh_token settings user_id jti expires_days issued uuid4 in
  issue.2 <= nd ->
  refresh settings db issue.1.1 nd nc ni = Raise InvalidRefreshToken.
Proof.
  intros issue Hnd.
  pose proof (decode_refresh_token settings user_id jti expires_days issued uuid4 nd) as Hdec.
  fold issue in Hdec. destruct issue as [[t j] exp]. cbn [fst snd] in *.
  rewrite (proj2 (Z.leb_le _ _)) in Hdec by done.
  unfold refresh. by rewrite Hdec.
Qed.

(** C8.  A successful [refresh] leaves the database as it found it, and
    the same token is accepted again at every later clock reading at which
    it still decodes and the stored record has not expired. *)
Theorem refresh_not_rotated (db db' : Db) (t : token) (nd nc ni : Z)
    (a : AccessToken) :
  refresh settings db t nd nc ni = Ok (a, db') ->
  db' = db /\
  forall nd' nc' ni',
    is_ok (decode_token settings t nd') = true ->
    (forall pk rt claims,
        refresh_tokens db' !! pk = Some rt ->
        unverified_claims t = Some claims ->
        claims !! "jti" = Some (JStr (RefreshToken.jti rt)) ->
        nc' < RefreshToken.expires_at rt) ->
    exists a', refresh settings db' t nd' nc' ni' = Ok (a', db').
Proof.
  intros H. pose proof (refresh_db_unchanged _ _ _ _ _ _ _ H) as ->.
  split; [done|]. intros nd' nc' ni' Hdec Hexp.
  destruct (refresh_ok_checked _ _ _ _ _ _ _ H) as (data & Hd & Ht & Hj & Hs).
  rewrite (refresh_checked db t nd nc ni data) in H by done.
  destruct (decode_token settings t nd') as [data'|] eqn:Hd'; [|done].
  assert (data' = data) as -> by (by eapply decode_token_same_claims).
  rewrite (refresh_checked db t nd' nc' ni' data) by done.
  destruct (scalar_one_or_none _) as [[[pk rt]|]|] eqn:Hsel; cbn in H |- *; try done.
  apply scalar_one_or_none_Some, select_singleton in Hsel as [Hpk Hjti].
  destruct (RefreshToken.revoked rt); [done|].
  destruct (_ <=? nc); [done|].
  assert (Hlt : nc' < RefreshToken.expires_at rt).
  { apply decode_token_payload in Hd as (alg & sig & ->).
    apply (Hexp pk rt data); [done|done|].
    destruct (data !! "jti") as [v|]; [|done]. cbn in Hjti. by subst v. }
  rewrite (proj2 (Z.leb_gt _ _)) by done.
  destruct (int_of_jvalue _) as [uid|]; cbn in H |- *; [|done].
  destruct (scalar_one_or_none _) as [[user|]|]; cbn in H |- *; try done.
  destruct (negb _); [done|]. eauto.
Qed.

Lemma filter_key_unique {A K : Type} `{EqDecision K} (f : A -> K) (k : K)
    (l : list A) :
  NoDup (f <$> l) ->
  filter (λ x, f x = k) l = [] \/ exists x, filter (λ x, f x = k) l = [x].
Proof.
  induction l as [|a l IH]; [by left|].
  rewrite fmap_cons, NoDup_cons. intros [Ha Hl].
  rewrite filter_cons. destruct (decide (f a = k)) as [Hk|Hk]; [|by apply IH].
  right. exists a. f_equal.
  destruct (filter (λ x, f x = k) l) as [|b rest] eqn:Hf; [done|].
  assert (Hb : b ∈ filter (λ x, f x = k) l) by (rewrite Hf; apply list_elem_of_here).
  apply list_elem_of_filter in Hb as [Hbk Hbl].
  destruct Ha. rewrite Hk, <- Hbk. by apply list_elem_of_fmap_2.
Qed.

Lemma str_nonempty (n : Z) : PyStr.str n <> "".
Proof.
  unfold PyStr.str. destruct n as [|p|p]; cbn; [done| |done].
  unfold NilZero.string_of_uint.
  destruct (Pos.to_uint p) as [|d|d|d|d|d|d|d|d|d|d]; done.
Qed.

Lemma select_nil (db : Db) (j : string) :
  (forall rt, rt ∈ refresh_tokens db -> RefreshToken.jti rt <> j) ->
  select_refresh_token_by_jti db (JStr j) = [].
Proof.
  intros Hno.
  destruct (select_refresh_token_by_jti db (JStr j)) as [|[pk rt] rest] eqn:Hsel; [done|].
  assert (H : (pk, rt) ∈ select_refresh_token_by_jti db (JStr j))
    by (rewrite Hsel; apply list_elem_of_here).
  apply elem_of_select in H as [Hpk [= Hj]].
  destruct (Hno rt); [|done]. by eapply list_elem_of_lookup_2.
Qed.


(** C10.  A refresh token issued by [create_refresh_token], presented
    before its expiry while no record of the table has its identifier, is
    refused by [refresh] with the revoked-token failure, the one a revoked
    record produces, and by [logout] with the unknown-token failure. *)
Theorem refresh_unknown_jti_reported_revoked (db : Db) (user_id : Z)
    (jti : option string) (expires_days : option Z) (issued : Z)
    (uuid4 : string) (nd nc ni : Z) :
  let issue :=
    create_refresh_token settings user_id jti expires_days issued uuid4 in
  uuid4 <> "" ->
  nd < issue.2 ->
  (forall rt, rt ∈ refresh_tokens db -> RefreshToken.jti rt <> issue.1.2) ->
  refresh settings db issue.1.1 nd nc ni = Raise TokenRevoked /\
  logout settings db issue.1.1 nd = Raise UnknownToken /\
  (forall db' pk rt,
     select_refresh_token_by_jti db' (JStr issue.1.2) = [(pk, rt)] ->
     RefreshToken.revoked rt = true ->
     refresh settings db' issue.1.1 nd nc ni = Raise TokenRevoked).
Proof.
  intros issue Hu Hnd Hno.
  pose proof (decode_refresh_token settings user_id jti expires_days issued uuid4 nd) as Hdec.
  pose proof (create_refresh_token_jti settings user_id jti expires_days issued uuid4 Hu) as Hj.
  fold issue in Hdec, Hj. destruct issue as [[t j] exp]. cbn [fst snd] in *.
  rewrite (proj2 (Z.leb_gt _ _)) in Hdec by done.
  assert (Htyp : refresh_claims (PyStr.str user_id) j exp !! "typ" = Some (JStr "refresh"))
    by (unfold refresh_claims; by simplify_map_eq).
  assert (Hjti : refresh_claims (PyStr.str user_id) j exp !! "jti" = Some (JStr j))
    by (unfold refresh_claims; by simplify_map_eq).
  assert (Hsub : refresh_claims (PyStr.str user_id) j exp !! "sub"
                 = Some (JStr (PyStr.str user_id)))
    by (unfold refresh_claims; by simplify_map_eq).
  assert (Htj : truthy (refresh_claims (PyStr.str user_id) j exp !! "jti") = true).
  { rewrite Hjti. cbn. by rewrite bool_decide_eq_false_2. }
  assert (Hts : truthy (refresh_claims (PyStr.str user_id) j exp !! "sub") = true).
  { rewrite Hsub. cbn. rewrite bool_decide_eq_false_2; [done|apply str_nonempty]. }
  split_and!.
  - rewrite (refresh_checked db t nd nc ni _ Hdec Htyp Htj Hts).
    rewrite Hjti. change (default (JStr "") (Some (JStr j))) with (JStr j). by rewrite select_nil.
  - rewrite (logout_checked db t nd _ Hdec Htyp Htj).
    rewrite Hjti. change (default (JStr "") (Some (JStr j))) with (JStr j). by rewrite select_nil.
  - intros db' pk rt Hsel Hrev.
    rewrite (refresh_checked db' t nd nc ni _ Hdec Htyp Htj Hts).
    rewrite Hjti. change (default (JStr "") (Some (JStr j))) with (JStr j). rewrite Hsel. cbn. by rewrite Hrev.
Qed.

Lemma select_app (us : list User.t) (l : list RefreshToken.t)
    (row : RefreshToken.t) (j : jvalue) :
  select_refresh_token_by_jti {| users := us; refresh_tokens := l ++ [row] |} j =
  select_refresh_token_by_jti {| users := us; refresh_tokens := l |} j
  ++ (if decide (JStr (RefreshToken.jti row) = j) then [(length l, row)] else []).
Proof.
  unfold select_refresh_token_by_jti. cbn [refresh_tokens].
  rewrite imap_app, filter_app. cbn [imap]. rewrite Nat.add_0_r.
  by rewrite filter_cons.
Qed.

(** Replacing a row by one with the same identifier changes the selection
    by identifier at that row only. *)
Lemma select_insert (db : Db) (pk : nat) (rt rt' : RefreshToken.t) (j : jvalue) :
  refresh_tokens db !! pk = Some rt ->
  RefreshToken.jti rt' = RefreshToken.jti rt ->
  exists before after,
    select_refresh_token_by_jti db j =
      before ++ (if decide (JStr (RefreshToken.jti rt) = j) then [(pk, rt)] else [])
             ++ after /\
    select_refresh_token_by_jti
      {| users := users db; refresh_tokens := <[pk := rt']> (refresh_tokens db) |} j =
      before ++ (if decide (JStr (RefreshToken.jti rt) = j) then [(pk, rt')] else [])
             ++ after.
Proof.
  intros Hpk Hj. unfold select_refresh_token_by_jti. cbn [refresh_tokens].
  pose proof (lookup_lt_Some _ _ _ Hpk) as Hlt.
  pose proof (take_drop_middle _ _ _ Hpk) as Hmid.
  rewrite (insert_take_drop _ _ _ Hlt).
  set (l1 := take pk (refresh_tokens db)) in *.
  set (l2 := drop (S pk) (refresh_tokens db)) in *.
  assert (Hlen : length l1 = pk) by (subst l1; rewrite length_take_le; lia).
  rewrite <- Hmid.
  rewrite !imap_app, !filter_app, !imap_cons, !filter_cons.
  rewrite Hlen, Nat.add_0_r. cbn [snd]. rewrite Hj.
  destruct (decide (JStr (RefreshToken.jti rt) = j)); eexists _, _; split; reflexivity.
Qed.

Lemma app_singleton_inv {A} (l1 l2 : list A) (x y : A) :
  l1 ++ x :: l2 = [y] -> l1 = [] /\ l2 = [] /\ x = y.
Proof.
  destruct l1 as [|a l1]; cbn.
  - by intros [= -> ->].
  - intros [= _ H]. by destruct l1.
Qed.

Lemma revoked_one_set_revoked (db : Db) (pk : nat) (rt : RefreshToken.t)
    (j j' : jvalue) :
  select_refresh_token_by_jti db j' = [(pk, rt)] ->
  (j = j' \/ revoked_one db j) ->
  revoked_one (set_revoked db pk rt) j.
Proof.
  intros Hsel Hj. pose proof (select_singleton _ _ _ _ Hsel) as [Hpk Hjti].
  destruct (select_insert db pk rt (RefreshToken.revoke rt) j Hpk eq_refl)
    as (before & after & Hold & Hnew).
  unfold revoked_one, set_revoked. rewrite Hnew.
  destruct (decide (JStr (RefreshToken.jti rt) = j)) as [Heq|Hne].
  - assert (Hone : exists row, select_refresh_token_by_jti db j = [row]).
    { destruct Hj as [->|(pk0 & rt0 & -> & _)]; eauto. }
    destruct Hone as [row Hrow]. rewrite Hrow in Hold. symmetry in Hold.
    apply app_singleton_inv in Hold as (-> & -> & _).
    exists pk, (RefreshToken.revoke rt). done.
  - destruct Hj as [->|(pk0 & rt0 & Hsel0 & Hrev0)]; [done|].
    rewrite <- Hold. eauto.
Qed.




End AuthFacts.

(** ** Closed instances *)

(** C1, on the code.  [example_user] logs in at time 0 and presents the
    refresh token one second after its seven days: the token fails to
    decode with the expiry error, and [refresh] reports it as an invalid
    refresh token, not as an expired one; the blanket handler around
    [decode_token] has replaced the error. *)
Theorem refresh_expired_reported_invalid :
  (exists access,
     login default_settings example_verify example_db
           "ann@example.org" "s3cret" 0 0 "7c9e"
     = Ok ({| tp_access_token := access;
              tp_refresh_token := example_refresh_token |},
           example_db_logged_in)) /\
  decode_token default_settings example_refresh_token example_late
  = Raise ExpiredSignatureError /\
  refresh default_settings example_db_logged_in example_refresh_token
          example_late example_late example_late
  = Raise InvalidRefreshToken /\
  InvalidRefreshToken <> TokenExpired.
Proof.
  split_and!.
  - eexists. vm_compute. reflexivity.
  - vm_compute. reflexivity.
  - vm_compute. reflexivity.
  - discriminate.
Qed.


(** After the logout, a second login, a refresh and a second logout leave
    the first record revoked under its identifier. *)
Lemma refresh_record_jti_fixed_revoked_monotone_witness :
  exists rt',
    refresh_tokens
      (handle_all default_settings example_verify example_db_logged_out
         [Login "ann@example.org" "s3cret" 2000000 2000000 "b2d1";
          Refresh example_refresh_token 3000000 3000000 3000000;
          Logout example_refresh_token 4000000]) !! 0%nat = Some rt' /\
    RefreshToken.jti rt' = RefreshToken.jti (example_row true) /\
    (RefreshToken.revoked (example_row true) = true ->
     RefreshToken.revoked rt' = true).
Proof.
  apply (refresh_record_jti_fixed_revoked_monotone default_settings
           example_verify example_db_logged_out).
  reflexivity.
Defined.


(** The token refreshed ten seconds after the login is accepted again. *)
Lemma refresh_not_rotated_witness :
  example_db_logged_in = example_db_logged_in /\
  forall nd' nc' ni',
    is_ok (decode_token default_settings example_refresh_token nd') = true ->
    (forall pk rt claims,
        refresh_tokens example_db_logged_in !! pk = Some rt ->
        unverified_claims example_refresh_token = Some claims ->
        claims !! "jti" = Some (JStr (RefreshToken.jti rt)) ->
        nc' < RefreshToken.expires_at rt) ->
    exists a',
      refresh default_settings example_db_logged_in example_refresh_token
              nd' nc' ni'
      = Ok (a', example_db_logged_in).
Proof.
  apply (refresh_not_rotated default_settings example_db_logged_in
           example_db_logged_in example_refresh_token 10000000 10000000 10000000
           {| at_access_token :=
                create_access_token default_settings "1" "admin" 10000000 |}).
  vm_compute. reflexivity.
Defined.


(** The token of [example_user] against a database without its record. *)
Lemma refresh_unknown_jti_reported_revoked_witness :
  refresh default_settings example_db example_refresh_token
          10000000 10000000 10000000 = Raise TokenRevoked /\
  logout default_settings example_db example_refresh_token 10000000
  = Raise UnknownToken /\
  (forall db' pk rt,
     select_refresh_token_by_jti db' (JStr "7c9e") = [(pk, rt)] ->
     RefreshToken.revoked rt = true ->
     refresh default_settings db' example_refresh_token
             10000000 10000000 10000000 = Raise TokenRevoked).
Proof.
  apply (refresh_unknown_jti_reported_revoked default_settings example_db
           1 None None 0 "7c9e" 10000000 10000000 10000000).
  - discriminate.
  - reflexivity.
  - intros rt Hrt. by apply elem_of_nil in Hrt.
Defined.

(** * Further properties *)

(** ** Binary64 facts behind the bucket registry *)

Section FloatFacts.
Import PyNum.

Lemma shr_1_nonneg (mrs : shr_record) : 0 <= shr_m mrs -> 0 <= shr_m (shr_1 mrs).
Proof. destruct mrs as [[|[p|p|]|p] r s]; cbn; lia. Qed.

Lemma iter_pos_nonneg (p : positive) (mrs : shr_record) :
  0 <= shr_m mrs -> 0 <= shr_m (SpecFloat.iter_pos shr_1 p mrs).
Proof.
  revert mrs. induction p as [p IH|p IH|]; intros mrs H; cbn.
  - by apply IH, IH, shr_1_nonneg.
  - by apply IH, IH.
  - by apply shr_1_nonneg.
Qed.

Lemma shr_fexp_nonneg (m e : Z) (l : location) :
  0 <= m -> 0 <= shr_m (shr_fexp prec emax m e l).1.
Proof.
  intros Hm. unfold shr_fexp, shr.
  assert (H0 : 0 <= shr_m (shr_record_of_loc m l)) by (by destruct l as [|[]]).
  destruct (_ - e) as [|p|p]; cbn [fst]; try done. by apply iter_pos_nonneg.
Qed.

Lemma round_nearest_even_nonneg (m : Z) (l : location) :
  0 <= m -> 0 <= round_nearest_even m l.
Proof. intros Hm. destruct l as [|[]]; cbn; try done; try lia. destruct (Z.even m); lia. Qed.

Lemma binary_round_aux_not_nan (sx : bool) (mx ex : Z) (lx : location) :
  0 <= mx -> binary_round_aux prec emax sx mx ex lx <> S754_nan.
Proof.
  intros Hm. unfold binary_round_aux.
  pose proof (shr_fexp_nonneg mx ex lx Hm) as H1.
  destruct (shr_fexp prec emax mx ex lx) as [mrs' e']. cbn [fst] in H1.
  pose proof (shr_fexp_nonneg _ e' loc_Exact
                (round_nearest_even_nonneg _ (loc_of_shr_record mrs') H1)) as H2.
  destruct (shr_fexp prec emax _ e' loc_Exact) as [mrs'' e'']. cbn [fst] in H2.
  destruct (shr_m mrs'') as [|p|p]; [done| |lia].
  by destruct (_ <=? _).
Qed.

Lemma float_of_int_finite (z : Z) (x : float) :
  float_of_int z = Ok x -> is_finite x = true.
Proof.
  unfold float_of_int, binary_normalize.
  destruct z as [|p|p]; [by intros [= <-]| |].
  all: unfold binary_round; destruct (shl_align _ _ _) as [mz ez].
  all: match goal with
       | |- context [binary_round_aux _ _ ?s _ _ _] =>
           pose proof (binary_round_aux_not_nan s (Z.pos mz) ez loc_Exact) as Hn
       end.
  all: destruct (binary_round_aux _ _ _ _ _ _) as [s0|s0| |s0 m0 e0].
  all: first [ by intros [= <-] | done | by destruct Hn ].
Qed.

Lemma fdiv_not_nan (x w : float) :
  is_finite x = true -> is_finite w = true -> is_zero w = false ->
  fdiv x w <> S754_nan.
Proof.
  destruct x as [sx| | |sx mx ex], w as [sw| | |sw mw ew]; try done.
  intros _ _ _. unfold fdiv, SFdiv.
  destruct (SFdiv_core_binary _ _ _ _ _ _) as [[mz ez] lz] eqn:Hcore.
  apply binary_round_aux_not_nan.
  unfold SFdiv_core_binary in Hcore.
  set (m' := match _ - _ - _ with Z0 => _ | Z.pos _ => _ | Z.neg _ => _ end) in Hcore.
  assert (Hm' : 0 <= m').
  { subst m'. destruct (_ - _ - _) as [|p|p]; try done.
    apply Z.shiftl_nonneg. done. }
  pose proof (Z.div_pos m' (Z.pos mw) Hm' eq_refl) as Hq.
  unfold Z.div in Hq. destruct (Z.div_eucl m' (Z.pos mw)) as [q r].
  by injection Hcore as <- _ _.
Qed.

(** The refill rate that [get_bucket] computes is never NaN, so it
    compares equal to itself. *)
Lemma rate_self_equal (cap window : Z) (w rate : float) :
  float_of_int window = Ok w ->
  truediv (PyInt cap) w = Ok rate ->
  neqb (PyFloat rate) (PyFloat rate) = false.
Proof.
  intros Hw Hr. unfold truediv in Hr. cbn [to_float] in Hr.
  destruct (float_of_int cap) as [x|] eqn:Hx; cbn in Hr; [|done].
  destruct (is_zero w) eqn:Hz; [done|]. injection Hr as <-.
  unfold neqb. cbn [PyNum.compare]. rewrite SFcompare_refl; [done|].
  apply fdiv_not_nan; eauto using float_of_int_finite.
Qed.

End FloatFacts.

(** ** The bucket registry and the rate-limit dependency *)

Section RateLimitExtras.
Import PyNum RateLimit RateLimitDep.

Lemma allow_config (b b' : TokenBucket) (now : float) (cost : Z) (a : bool) :
  allow b now cost = Ok (a, b') ->
  capacity b' = capacity b /\ refill_rate b' = refill_rate b.
Proof.
  unfold allow. destruct (ltb _ _).
  - destruct (add _ _) as [t|]; cbn; [|done].
    destruct (geb _ _); cbn.
    + destruct (sub _ _); cbn; [|done]. by intros [= _ <-].
    + by intros [= _ <-].
  - cbn. destruct (geb _ _); cbn.
    + destruct (sub _ _); cbn; [|done]. by intros [= _ <-].
    + by intros [= _ <-].
Qed.

Lemma allow_all_config (b b' : TokenBucket) (nows : list float) (cost : Z)
    (answers : list bool) :
  allow_all b nows cost = Ok (answers, b') ->
  capacity b' = capacity b /\ refill_rate b' = refill_rate b.
Proof.
  revert b answers. induction nows as [|now nows IH]; intros b answers; cbn.
  - by intros [= _ <-].
  - destruct (allow b now cost) as [[a b1]|] eqn:H1; cbn; [|done].
    destruct (allow_all b1 nows cost) as [[l b2]|] eqn:H2; cbn; [|done].
    intros [= _ <-]. destruct (IH _ _ H2) as [-> ->]. by eapply allow_config.
Qed.

(** What [get_bucket] returns has the requested capacity and a refill
    rate that compares equal to the requested one. *)
Lemma get_bucket_config (store store1 : gmap string TokenBucket) (key : string)
    (cap window : Z) (now w rate : float) (b : TokenBucket) :
  float_of_int window = Ok w ->
  truediv (PyInt cap) w = Ok rate ->
  get_bucket store key cap window now = Ok (b, store1) ->
  store1 !! key = Some b /\
  negb (capacity b =? cap) || neqb (PyFloat (refill_rate b)) (PyFloat rate) = false.
Proof.
  intros Hw Hr. unfold get_bucket. rewrite Hw. cbn [mbind res_bind].
  rewrite Hr. cbn [mbind res_bind].
  assert (Hfresh : negb (cap =? cap)
                   || neqb (PyFloat rate) (PyFloat rate) = false).
  { by rewrite Z.eqb_refl, (rate_self_equal cap window w rate). }
  destruct (store !! key) as [b0|] eqn:Hb0.
  - destruct (negb (capacity b0 =? cap) || _) eqn:Hch; intros ?; simplify_eq.
    + by rewrite lookup_insert_eq.
    + done.
  - intros ?; simplify_eq. by rewrite lookup_insert_eq.
Qed.

(** X1.  A bucket is not reset by asking for it again: once [get_bucket]
    has returned the bucket of a key for a capacity and a window, and
    whatever [allow] calls the bucket has served since, the next
    [get_bucket] for the same key, capacity and window returns that bucket
    with the tokens it has left, and leaves the registry as it is. *)
Theorem get_bucket_again_keeps_bucket (store store1 : gmap string TokenBucket)
    (key : string) (cap window : Z) (t0 t1 : float) (b b' : TokenBucket)
    (nows : list float) (cost : Z) (answers : list bool) :
  get_bucket store key cap window t0 = Ok (b, store1) ->
  allow_all b nows cost = Ok (answers, b') ->
  get_bucket (<[key := b']> store1) key cap window t1
  = Ok (b', <[key := b']> store1).
Proof.
  intros Hget Hall.
  assert (Hwr : exists w rate, float_of_int window = Ok w /\
                               truediv (PyInt cap) w = Ok rate).
  { unfold get_bucket in Hget.
    destruct (float_of_int window) as [w|]; cbn [mbind res_bind] in Hget; [|done].
    destruct (truediv (PyInt cap) w) as [rate|] eqn:Hr;
      cbn [mbind res_bind] in Hget; [|done].
    by exists w, rate. }
  destruct Hwr as (w & rate & Hw & Hr).
  destruct (get_bucket_config _ _ _ _ _ _ _ _ _ Hw Hr Hget) as [_ Hcfg].
  apply allow_all_config in Hall as [Hc Hrt].
  unfold get_bucket. rewrite Hw. cbn [mbind res_bind]. rewrite Hr.
  cbn [mbind res_bind]. rewrite lookup_insert_eq, Hc, Hrt, Hcfg. done.
Qed.

(** A login bucket that has served two requests. *)
Lemma get_bucket_again_keeps_bucket_witness :
  let t0 := S754_finite false 8796093022208000 (-43) in
  let r5 := S754_finite false 6004799503160661 (-56) in
  let used := {| capacity := 5; tokens := PyInt 3; refill_rate := r5;
                 last_refill := t0 |} in
  get_bucket (<["login:10.0.0.1" := used]>
                (<["login:10.0.0.1" := TokenBucket_init 5 r5 t0]> ∅))
             "login:10.0.0.1" 5 60 t0
  = Ok (used, <["login:10.0.0.1" := used]>
                (<["login:10.0.0.1" := TokenBucket_init 5 r5 t0]> ∅)).
Proof.
  intros t0 r5 used.
  apply (get_bucket_again_keeps_bucket ∅ _ "login:10.0.0.1" 5 60 t0 t0
           (TokenBucket_init 5 r5 t0) used [t0; t0] 1 [true; true]).
  - vm_compute. reflexivity.
  - vm_compute. reflexivity.
Defined.

(** At the instant of the last refill nothing is added, whatever the
    refill rate. *)
Lemma allow_same_instant_any (c : Z) (tk : num) (r t : float) (cost : Z) :
  is_finite t = true ->
  allow {| capacity := c; tokens := tk; refill_rate := r; last_refill := t |}
        t cost =
    if geb tk (PyInt cost) then
      tk' ← sub tk (PyInt cost);
      Ok (true, {| capacity := c; tokens := tk'; refill_rate := r;
                   last_refill := t |})
    else
      Ok (false, {| capacity := c; tokens := tk; refill_rate := r;
                    last_refill := t |}).
Proof.
  intros Hnow. unfold allow. cbn [last_refill refill_rate].
  rewrite fsub_diag by done.
  assert (Hz : ltb (PyInt 0) (PyFloat (fmul (S754_zero false) r)) = false)
    by (by destruct r as [[]|[]| |[] m e]).
  by rewrite Hz.
Qed.

(** One request at the instant [t0], for a key that has no bucket yet or
    has a bucket of [k] whole tokens last refilled at [t0]: it is let
    through, and takes a token, exactly when [k] is at least 1. *)
Lemma rate_limit_step (bucket_id : string) (limit window : Z)
    (store : gmap string TokenBucket) (request : Request) (t0 w rate : float)
    (k : Z) :
  float_of_int window = Ok w ->
  truediv (PyInt limit) w = Ok rate ->
  is_finite t0 = true ->
  (store !! bucket_key bucket_id request = None /\ k = limit) \/
  (exists r,
     store !! bucket_key bucket_id request
     = Some {| capacity := limit; tokens := PyInt k; refill_rate := r;
               last_refill := t0 |} /\
     neqb (PyFloat r) (PyFloat rate) = false) ->
  exists store' r,
    rate_limit bucket_id limit window store request t0 t0
    = (store', if 1 <=? k then Ok () else Raise RateLimited) /\
    store' !! bucket_key bucket_id request
    = Some {| capacity := limit;
              tokens := PyInt (if 1 <=? k then k - 1 else k);
              refill_rate := r; last_refill := t0 |} /\
    neqb (PyFloat r) (PyFloat rate) = false.
Proof.
  intros Hw Hr Ht0 Hinv. unfold rate_limit, get_bucket.
  set (key := bucket_key bucket_id request) in *.
  rewrite Hw. cbn [mbind res_bind]. rewrite Hr. cbn [mbind res_bind].
  assert (Hgeb : geb (PyInt k) (PyInt 1) = (1 <=? k)).
  { unfold geb. cbn [PyNum.compare]. destruct (Z.leb_spec 1 k) as [H|H].
    - destruct (Z.compare_spec k 1); try done; lia.
    - destruct (Z.compare_spec k 1); try done; lia. }
  destruct Hinv as [[Hnone ->]|(r & Hsome & Hrate)].
  - rewrite Hnone. unfold TokenBucket_init.
    rewrite allow_same_instant_any by done. rewrite Hgeb.
    destruct (1 <=? limit); cbn.
    + eexists _, rate. split; [reflexivity|]. rewrite lookup_insert_eq.
      split; [done|]. by eapply rate_self_equal.
    + eexists _, rate. split; [reflexivity|]. rewrite lookup_insert_eq.
      split; [done|]. by eapply rate_self_equal.
  - rewrite Hsome. cbn [capacity refill_rate]. rewrite Z.eqb_refl, Hrate.
    cbn [negb orb]. rewrite allow_same_instant_any by done. rewrite Hgeb.
    destruct (1 <=? k); cbn.
    + eexists _, r. split; [reflexivity|]. by rewrite lookup_insert_eq.
    + eexists _, r. split; [reflexivity|]. by rewrite lookup_insert_eq.
Qed.

Lemma rate_limit_repeat_burst (bucket_id : string) (limit window : Z)
    (request : Request) (t0 w rate : float) (n : nat) :
  float_of_int window = Ok w ->
  truediv (PyInt limit) w = Ok rate ->
  is_finite t0 = true ->
  forall (m : nat) (store : gmap string TokenBucket),
    (store !! bucket_key bucket_id request = None /\ Z.of_nat m = limit) \/
    (exists r,
       store !! bucket_key bucket_id request
       = Some {| capacity := limit; tokens := PyInt (Z.of_nat m);
                 refill_rate := r; last_refill := t0 |} /\
       neqb (PyFloat r) (PyFloat rate) = false) ->
    (rate_limit_repeat (m + n) bucket_id limit window store request t0).2
    = replicate m (Ok ()) ++ replicate n (Raise RateLimited).
Proof.
  intros Hw Hr Ht0 m. induction m as [|m IH]; intros store Hinv.
  - cbn [Nat.add replicate app]. revert store Hinv.
    induction n as [|n IHn]; intros store Hinv; [done|].
    destruct (rate_limit_step bucket_id limit window store request t0 w rate 0
                Hw Hr Ht0 Hinv) as (store' & r & Hstep & Hlook & Hrate).
    cbn [rate_limit_repeat]. rewrite Hstep. cbn [Z.leb Z.compare] in *.
    specialize (IHn store' (or_intror (ex_intro _ r (conj Hlook Hrate)))).
    destruct (rate_limit_repeat n _ _ _ store' _ _) as [store'' rs].
    cbn [snd] in *. by rewrite IHn.
  - destruct (rate_limit_step bucket_id limit window store request t0 w rate
                (Z.of_nat (S m)) Hw Hr Ht0 Hinv)
      as (store' & r & Hstep & Hlook & Hrate).
    rewrite (proj2 (Z.leb_le 1 (Z.of_nat (S m)))) in Hstep, Hlook by lia.
    replace (Z.of_nat (S m) - 1) with (Z.of_nat m) in Hlook by lia.
    cbn [Nat.add rate_limit_repeat]. rewrite Hstep.
    specialize (IH store' (or_intror (ex_intro _ r (conj Hlook Hrate)))).
    destruct (rate_limit_repeat (m + n) _ _ _ store' _ _) as [store'' rs].
    cbn [snd] in *. by rewrite IH.
Qed.

(** X2.  A client that has no bucket yet and sends requests in a burst, at
    the instant its bucket is created, gets exactly [limit] of them
    through; every further one is refused with the rate-limit failure. *)
Theorem rate_limit_burst (bucket_id : string) (limit window : Z)
    (store : gmap string TokenBucket) (request : Request) (t0 : float)
    (n : nat) :
  0 <= limit ->
  is_finite t0 = true ->
  store !! bucket_key bucket_id request = None ->
  is_ok (get_bucket store (bucket_key bucket_id request) limit window t0) = true ->
  (rate_limit_repeat (Z.to_nat limit + n) bucket_id limit window store request t0).2
  = replicate (Z.to_nat limit) (Ok ()) ++ replicate n (Raise RateLimited).
Proof.
  intros Hlimit Ht0 Hnone Hok. unfold get_bucket in Hok.
  destruct (float_of_int window) as [w|] eqn:Hw; cbn [mbind res_bind] in Hok; [|done].
  destruct (truediv (PyInt limit) w) as [rate|] eqn:Hr;
    cbn [mbind res_bind] in Hok; [|done].
  apply (rate_limit_repeat_burst bucket_id limit window request t0 w rate n Hw Hr Ht0).
  left. split; [done|lia].
Qed.

(** Seven login requests of one address at the instant 1000.0, with the
    login limit of the default settings. *)
Lemma rate_limit_burst_witness :
  (rate_limit_repeat 7 "login" 5 60 ∅
     {| state_user_id := None; x_forwarded_for := None;
        client_host := Some "10.0.0.1" |}
     (S754_finite false 8796093022208000 (-43))).2
  = replicate 5 (Ok ()) ++ replicate 2 (Raise RateLimited).
Proof.
  apply (rate_limit_burst "login" 5 60 ∅
           {| state_user_id := None; x_forwarded_for := None;
              client_host := Some "10.0.0.1" |}
           (S754_finite false 8796093022208000 (-43)) 2).
  - lia.
  - reflexivity.
  - reflexivity.
  - vm_compute. reflexivity.
Defined.

(** X3.  With a window of zero the dependency fails every request with
    the division error of [get_bucket], before any bucket is made: the
    registry is left as it was and no request is answered with the
    rate-limit failure. *)
Theorem rate_limit_zero_window (bucket_id : string) (limit : Z)
    (store : gmap string TokenBucket) (request : Request) (t t' : float) :
  is_ok (float_of_int limit) = true ->
  rate_limit bucket_id limit 0 store request t t'
  = (store, Raise ZeroDivisionError).
Proof.
  intros Hlimit. unfold rate_limit, get_bucket, truediv. cbn [to_float].
  change (float_of_int 0) with (Ok (S754_zero false) : res float).
  cbn [mbind res_bind].
  by destruct (float_of_int limit).
Qed.

Lemma rate_limit_zero_window_witness :
  rate_limit "api" 60 0 ∅
    {| state_user_id := None; x_forwarded_for := None; client_host := None |}
    (S754_zero false) (S754_zero false)
  = (∅, Raise ZeroDivisionError).
Proof.
  apply (rate_limit_zero_window "api" 60 ∅). vm_compute. reflexivity.
Defined.

Lemma append_colon_inj (a b s s' : string) :
  PyText.split_first ":" a = a ->
  PyText.split_first ":" b = b ->
  a +:+ ":" +:+ s = b +:+ ":" +:+ s' ->
  a = b /\ s = s'.
Proof.
  revert b. induction a as [|c a IH]; intros [|d b]; simpl.
  - intros _ _ H. by simplify_eq.
  - intros _ Hb H. injection H as <- _. by rewrite Ascii.eqb_refl in Hb.
  - intros Ha _ H. injection H as -> _. by rewrite Ascii.eqb_refl in Ha.
  - destruct (Ascii.eqb c ":") eqn:Hc; [done|].
    destruct (Ascii.eqb d ":") eqn:Hd; [done|].
    intros Ha Hb H. injection Ha as Ha. injection Hb as Hb.
    injection H as -> Heq.
    destruct (IH b Ha Hb Heq) as [-> ->]. done.
Qed.

(** X4.  Scopes do not share buckets: for bucket identifiers without a
    colon, two requests get the same bucket key only under the same
    identifier, and with the same client part. *)
Theorem bucket_key_scope_injective (id1 id2 : string) (r1 r2 : Request) :
  PyText.split_first ":" id1 = id1 ->
  PyText.split_first ":" id2 = id2 ->
  bucket_key id1 r1 = bucket_key id2 r2 ->
  id1 = id2 /\ bucket_key "" r1 = bucket_key "" r2.
Proof.
  intros H1 H2 Hkey. unfold bucket_key in *.
  apply append_colon_inj in Hkey as [-> ->]; done.
Qed.

Lemma bucket_key_scope_injective_witness :
  "login" = "login" /\
  bucket_key "" {| state_user_id := Some 7; x_forwarded_for := None;
                   client_host := Some "10.0.0.1" |}
  = bucket_key "" {| state_user_id := Some 7;
                     x_forwarded_for := Some "192.168.1.9, 10.0.0.2";
                     client_host := None |}.
Proof.
  apply (bucket_key_scope_injective "login" "login"); reflexivity.
Defined.

Lemma split_first_app (sep : ascii) (a rest : string) :
  PyText.split_first sep a = a ->
  PyText.split_first sep (a +:+ String sep rest) = a.
Proof.
  induction a as [|c a IH]; simpl.
  - by rewrite Ascii.eqb_refl.
  - destruct (Ascii.eqb c sep); [done|]. intros Ha. injection Ha as Ha.
    by rewrite IH.
Qed.

(** X5.  Of a forwarded-for chain only the first address counts: a request
    without a user id whose header is an address, a comma and anything
    else gets the bucket key of the request whose header is that address
    alone. *)
Theorem bucket_key_first_hop (bucket_id : string) (request : Request)
    (a rest : string) :
  state_user_id request = None ->
  x_forwarded_for request = Some (a +:+ "," +:+ rest) ->
  PyText.split_first "," a = a ->
  bucket_key bucket_id request
  = bucket_key bucket_id
      {| state_user_id := None; x_forwarded_for := Some a;
         client_host := client_host request |}.
Proof.
  intros Hu Hx Ha. unfold bucket_key. rewrite Hu, Hx. cbn [default from_option id
    state_user_id x_forwarded_for client_host].
  change (a +:+ "," +:+ rest) with (a +:+ String "," rest).
  by rewrite split_first_app, Ha.
Qed.

Lemma bucket_key_first_hop_witness :
  bucket_key "api"
    {| state_user_id := None;
       x_forwarded_for := Some "203.0.113.5, 10.0.0.2, 10.0.0.3";
       client_host := Some "10.0.0.3" |}
  = bucket_key "api"
      {| state_user_id := None; x_forwarded_for := Some "203.0.113.5";
         client_host := Some "10.0.0.3" |}.
Proof.
  apply (bucket_key_first_hop "api"
           {| state_user_id := None;
              x_forwarded_for := Some "203.0.113.5, 10.0.0.2, 10.0.0.3";
              client_host := Some "10.0.0.3" |}
           "203.0.113.5" " 10.0.0.2, 10.0.0.3"); reflexivity.
Defined.

End RateLimitExtras.

(** ** Tokens, bearer authentication and the handlers together *)

Import Deps.

Section AuthExtras.
Context (settings : Settings).
Context (verify_password : string -> string -> bool).

(** [int(str(n))] is [n]. *)
Lemma int_str (n : Z) : PyStr.int (PyStr.str n) = Ok n.
Proof.
  unfold PyStr.int, PyStr.str. rewrite NilZero.isi.
  - by rewrite DecimalZ.of_to.
  - destruct n as [|p|p]; cbn; try done. intros [= H].
    by apply (Unsigned.to_uint_nonnil p).
  - destruct n as [|p|p]; cbn; try done. intros [= H].
    by apply (Unsigned.to_uint_nonnil p).
Qed.

Lemma select_user_by_id_unique (db : Db) (u : User.t) :
  NoDup (User.id <$> users db) ->
  u ∈ users db ->
  select_user_by_id db (User.id u) = [u].
Proof.
  intros Hnd Hu. unfold select_user_by_id.
  assert (Hin : u ∈ filter (λ x, User.id x = User.id u) (users db))
    by (by apply list_elem_of_filter).
  destruct (filter_key_unique User.id (User.id u) (users db) Hnd) as [Hnil|[x Hx]].
  - rewrite Hnil in Hin. by apply elem_of_nil in Hin.
  - rewrite Hx in Hin |- *. by apply list_elem_of_singleton in Hin as ->.
Qed.


(** X7.  [refresh] and [logout] never accept an access token: whatever
    the database and the clock, a token issued by [create_access_token] is
    refused as an invalid refresh token once expired and for its type
    before that. *)
Theorem access_token_refused_as_refresh_token (db : Db) (subject role : string)
    (issued nd nc ni : Z) :
  let t := create_access_token settings subject role issued in
  let failure :=
    if issued + timedelta_minutes (ACCESS_TOKEN_EXPIRES_MINUTES settings) <=? nd
    then InvalidRefreshToken else InvalidTokenType in
  refresh settings db t nd nc ni = Raise failure /\
  logout settings db t nd = Raise failure.
Proof.
  intros t failure. subst t failure. unfold refresh, logout.
  rewrite decode_access_token. cbn zeta.
  destruct (_ <=? nd); cbn [try_except mbind res_bind]; [done|].
  rewrite bool_decide_eq_true_2; [done|].
  unfold access_claims. by simplify_map_eq.
Qed.

(** X8.  [get_current_user] never accepts a refresh token as a bearer
    credential: a token issued by [create_refresh_token] is refused as an
    invalid token once expired and for its type before that. *)
Theorem refresh_token_refused_as_credential (request : Request) (db : Db)
    (user_id : Z) (jti : option string) (expires_days : option Z)
    (issued : Z) (uuid4 : string) (now : Z) :
  let issue :=
    create_refresh_token settings user_id jti expires_days issued uuid4 in
  get_current_user settings request db (Some issue.1.1) now
  = Raise (if issue.2 <=? now then InvalidAccessToken else InvalidTokenType).
Proof.
  intros issue.
  pose proof (decode_refresh_token settings user_id jti expires_days issued uuid4 now) as Hdec.
  fold issue in Hdec. destruct issue as [[t j] exp]. cbn [fst snd] in *.
  unfold get_current_user. rewrite Hdec.
  destruct (exp <=? now); cbn [try_except mbind res_bind]; [done|].
  rewrite bool_decide_eq_true_2; [done|].
  unfold refresh_claims. by simplify_map_eq.
Qed.

(** The user [get_current_user] returns is the single row whose id the
    subject of a decoded access token names, and it is active. *)
Lemma get_current_user_ok_inv (request request' : Request) (db : Db)
    (credentials : option token) (now : Z) (user : User.t) :
  get_current_user settings request db credentials now = Ok (user, request') ->
  exists t payload uid,
    credentials = Some t /\
    decode_token settings t now = Ok payload /\
    payload !! "typ" = Some (JStr "access") /\
    int_of_jvalue (payload !! "sub") = Ok uid /\
    select_user_by_id db uid = [user] /\
    User.is_active user = true /\
    request' = {| state_user_id := Some (User.id user);
                  x_forwarded_for := x_forwarded_for request;
                  client_host := client_host request |}.
Proof.
  unfold get_current_user. destruct credentials as [t|]; [|done].
  destruct (decode_token settings t now) as [payload|] eqn:Hd;
    cbn [try_except mbind res_bind]; [|done].
  case_bool_decide as Htyp; [done|].
  destruct (truthy _); cbn [negb]; [|done].
  destruct (int_of_jvalue _) as [uid|] eqn:Hu; cbn [mbind res_bind]; [|done].
  destruct (scalar_one_or_none _) as [[u|]|] eqn:Hsel; cbn [mbind res_bind]; try done.
  apply scalar_one_or_none_Some in Hsel.
  destruct (User.is_active u) eqn:Hact; cbn [negb]; [|done].
  intros [= <- <-]. exists t, payload, uid. split_and!; try done.
  all: by destruct (decide (payload !! "typ" = Some (JStr "access"))).
Qed.

(** X9.  [get_current_user] only ever returns a user of the table that
    is active and whose id is the subject of the presented token, and it
    records that id, and nothing else, on the request. *)
Theorem get_current_user_sound (request request' : Request) (db : Db)
    (credentials : option token) (now : Z) (user : User.t) :
  get_current_user settings request db credentials now = Ok (user, request') ->
  user ∈ users db /\
  User.is_active user = true /\
  (exists t payload,
     credentials = Some t /\ decode_token settings t now = Ok payload /\
     int_of_jvalue (payload !! "sub") = Ok (User.id user)) /\
  state_user_id request' = Some (User.id user) /\
  x_forwarded_for request' = x_forwarded_for request /\
  client_host request' = client_host request.
Proof.
  intros (t & payload & uid & -> & Hd & _ & Hu & Hsel & Hact & ->)%get_current_user_ok_inv.
  assert (Hin : user ∈ select_user_by_id db uid)
    by (rewrite Hsel; apply list_elem_of_here).
  apply list_elem_of_filter in Hin as [<- Hin].
  split_and!; try done. by exists t, payload.
Qed.

(** With a bearer token: what [get_current_user] does for an access token
    issued for the id of a user that is the only one with that id. *)
Lemma get_current_user_issued (request : Request) (db : Db) (u : User.t)
    (role : string) (issued now : Z) :
  select_user_by_id db (User.id u) = [u] ->
  now < issued + timedelta_minutes (ACCESS_TOKEN_EXPIRES_MINUTES settings) ->
  get_current_user settings request db
    (Some (create_access_token settings (PyStr.str (User.id u)) role issued)) now
  = if User.is_active u
    then Ok (u, {| state_user_id := Some (User.id u);
                   x_forwarded_for := x_forwarded_for request;
                   client_host := client_host request |})
    else Raise UserInactiveOrMissing.
Proof.
  intros Hsel Hnow. unfold get_current_user. rewrite decode_access_token. cbn zeta.
  rewrite (proj2 (Z.leb_gt _ _)) by done. cbn [try_except mbind res_bind].
  assert (Ht : access_claims (PyStr.str (User.id u)) role
                 (issued + timedelta_minutes (ACCESS_TOKEN_EXPIRES_MINUTES settings))
               !! "typ" = Some (JStr "access"))
    by (unfold access_claims; by simplify_map_eq).
  assert (Hs : access_claims (PyStr.str (User.id u)) role
                 (issued + timedelta_minutes (ACCESS_TOKEN_EXPIRES_MINUTES settings))
               !! "sub" = Some (JStr (PyStr.str (User.id u))))
    by (unfold access_claims; by simplify_map_eq).
  rewrite bool_decide_eq_false_2 by (intros H; by apply H).
  rewrite Hs. cbn [truthy int_of_jvalue].
  rewrite bool_decide_eq_false_2 by apply str_nonempty. cbn [negb].
  rewrite int_str. cbn [mbind res_bind]. rewrite Hsel. cbn.
  by destruct (User.is_active u).
Qed.

(** X10.  The role that counts for [admin_secret] is the one in the users
    table, not the one in the token: for an unexpired access token issued
    for an active user, whatever role was written into it, the route
    answers exactly when the user's row has the role "admin" and refuses
    with the insufficient-role failure otherwise. *)
Theorem admin_secret_checks_stored_role (request : Request) (db : Db)
    (u : User.t) (claimed_role : string) (issued now : Z) :
  NoDup (User.id <$> users db) ->
  u ∈ users db ->
  User.is_active u = true ->
  now < issued + timedelta_minutes (ACCESS_TOKEN_EXPIRES_MINUTES settings) ->
  admin_secret settings request db
    (Some (create_access_token settings (PyStr.str (User.id u)) claimed_role issued))
    now
  = if decide (User.role u = "admin") then Ok [("secret", "ok")]
    else Raise InsufficientRole.
Proof.
  intros Hnd Hu Hact Hnow. unfold admin_secret, require_roles.
  rewrite get_current_user_issued by (by try apply select_user_by_id_unique).
  rewrite Hact. cbn [mbind res_bind].
  destruct (decide (User.role u = "admin")) as [Hr|Hr];
    case_bool_decide as Hb; cbn [mbind res_bind]; try done.
  - destruct Hb. rewrite Hr. apply list_elem_of_here.
  - destruct Hr. by apply list_elem_of_singleton in Hb.
Qed.

(** X11.  The users table is read only: no sequence of login, refresh and
    logout requests changes it. *)
Theorem handle_all_users_fixed (db : Db) (rqs : list request) :
  users (handle_all settings verify_password db rqs) = users db.
Proof.
  unfold handle_all. revert db.
  induction rqs as [|rq rqs IH]; intros db; cbn [foldl]; [done|].
  rewrite IH. destruct rq as [e p na nr uuid4|t nd nc ni|t nd]; cbn [handle].
  - destruct (login _ _ _ _ _ _ _ _) as [[pair db']|err] eqn:H; cbn; [|done].
    apply login_ok_inv in H as (user & _ & _ & H).
    unfold create_refresh_token in H. by destruct H as (_ & -> & _).
  - destruct (refresh _ _ _ _ _ _) as [[a db']|err] eqn:H; cbn; [|done].
    by apply refresh_db_unchanged in H as ->.
  - destruct (logout _ _ _ _) as [[msg db']|err] eqn:H; cbn; [|done].
    by apply logout_ok_inv in H as (data & pk & rt & _ & _ & _ & _ & ->).
Qed.

(** What [refresh] does with an unexpired token issued by
    [create_refresh_token] when exactly one row has its identifier. *)
Lemma refresh_issued (db : Db) (user_id : Z) (jti : option string)
    (expires_days : option Z) (issued : Z) (uuid4 : string) (nd nc ni : Z)
    (pk : nat) (rt : RefreshToken.t) :
  let issue :=
    create_refresh_token settings user_id jti expires_days issued uuid4 in
  uuid4 <> "" ->
  nd < issue.2 ->
  select_refresh_token_by_jti db (JStr issue.1.2) = [(pk, rt)] ->
  refresh settings db issue.1.1 nd nc ni =
    if RefreshToken.revoked rt then Raise TokenRevoked
    else if RefreshToken.expires_at rt <=? nc then Raise TokenExpired
    else
      user ← scalar_one_or_none (select_user_by_id db user_id);
      match user with
      | None => Raise UserInactiveOrMissing
      | Some user =>
          if negb (User.is_active user) then Raise UserInactiveOrMissing
          else
            Ok ({| at_access_token :=
                     create_access_token settings (PyStr.str (User.id user))
                                         (User.role user) ni |}, db)
      end.
Proof.
  intros issue Hu Hnd Hsel.
  pose proof (decode_refresh_token settings user_id jti expires_days issued uuid4 nd) as Hdec.
  pose proof (create_refresh_token_jti settings user_id jti expires_days issued uuid4 Hu) as Hj.
  fold issue in Hdec, Hj. destruct issue as [[t j] exp]. cbn [fst snd] in *.
  rewrite (proj2 (Z.leb_gt _ _)) in Hdec by done.
  assert (Htyp : refresh_claims (PyStr.str user_id) j exp !! "typ" = Some (JStr "refresh"))
    by (unfold refresh_claims; by simplify_map_eq).
  assert (Hjti : refresh_claims (PyStr.str user_id) j exp !! "jti" = Some (JStr j))
    by (unfold refresh_claims; by simplify_map_eq).
  assert (Hsub : refresh_claims (PyStr.str user_id) j exp !! "sub"
                 = Some (JStr (PyStr.str user_id)))
    by (unfold refresh_claims; by simplify_map_eq).
  rewrite (refresh_checked settings db t nd nc ni _ Hdec Htyp).
  - rewrite Hjti, Hsub. change (default (JStr "") (Some (JStr j))) with (JStr j).
    rewrite Hsel. cbn [scalar_one_or_none mbind res_bind int_of_jvalue].
    by rewrite int_str.
  - rewrite Hjti. cbn. by rewrite bool_decide_eq_false_2.
  - rewrite Hsub. cbn. rewrite bool_decide_eq_false_2; [done|apply str_nonempty].
Qed.

(** After a successful [login] exactly one row has the new identifier: the
    row appended for it. *)
Lemma login_select (db db' : Db) (email password : string) (na nr : Z)
    (uuid4 : string) (pair : TokenPair) :
  login settings verify_password db email password na nr uuid4 = Ok (pair, db') ->
  exists u,
    u ∈ users db /\ User.email u = email /\
    users db' = users db /\
    pair = {| tp_access_token :=
                create_access_token settings (PyStr.str (User.id u)) (User.role u) na;
              tp_refresh_token :=
                (create_refresh_token settings (User.id u) None None nr uuid4).1.1 |} /\
    select_refresh_token_by_jti db' (JStr uuid4)
    = [(length (refresh_tokens db),
        {| RefreshToken.user_id := User.id u; RefreshToken.jti := uuid4;
           RefreshToken.expires_at :=
             nr + timedelta_days (REFRESH_TOKEN_EXPIRES_DAYS settings);
           RefreshToken.revoked := false |})].
Proof.
  intros H. apply login_ok_inv in H as (u & Hsel & _ & H).
  unfold create_refresh_token in H. destruct H as (Hnew & -> & ->).
  assert (Hin : u ∈ select_user_by_email db email)
    by (rewrite Hsel; apply list_elem_of_here).
  apply list_elem_of_filter in Hin as [Hemail Hin].
  exists u. split_and!; try done.
  destruct db as [us l]. cbn [users refresh_tokens] in *.
  rewrite select_app. cbn [RefreshToken.jti]. rewrite decide_True by done.
  rewrite select_nil; [done|]. cbn [refresh_tokens]. intros rt Hrt Hj.
  destruct Hnew. rewrite <- Hj. by apply list_elem_of_fmap_2.
Qed.

(** X12.  [login] and [refresh] fit together: the refresh token that a
    successful login returns is accepted, as long as neither its signed
    expiry nor the stored one is reached, and yields an access token for
    the user that logged in, with the role of that user's row.  [login]
    does not look at the active flag; for a user that is not active the
    refresh is refused. *)
Theorem login_then_refresh (db db1 : Db) (email password : string) (na nr : Z)
    (uuid4 : string) (pair : TokenPair) (nd nc ni : Z) :
  login settings verify_password db email password na nr uuid4 = Ok (pair, db1) ->
  uuid4 <> "" ->
  NoDup (User.id <$> users db) ->
  nd < nr + timedelta_days (REFRESH_TOKEN_EXPIRES_DAYS settings) ->
  nc < nr + timedelta_days (REFRESH_TOKEN_EXPIRES_DAYS settings) ->
  exists u,
    u ∈ users db /\ User.email u = email /\
    refresh settings db1 (tp_refresh_token pair) nd nc ni =
      if User.is_active u
      then Ok ({| at_access_token :=
                    create_access_token settings (PyStr.str (User.id u))
                                        (User.role u) ni |}, db1)
      else Raise UserInactiveOrMissing.
Proof.
  intros Hlogin Hu Hnd Hd Hc.
  apply login_select in Hlogin as (u & Hin & Hemail & Husers & -> & Hsel).
  exists u. split_and!; try done. cbn [tp_refresh_token].
  pose proof (refresh_issued db1 (User.id u) None None nr uuid4 nd nc ni
                _ _ Hu Hd Hsel) as Href.
  cbn zeta in Href. rewrite Href.
  cbn [RefreshToken.revoked RefreshToken.expires_at].
  rewrite (proj2 (Z.leb_gt _ _)) by done.
  unfold select_user_by_id. rewrite Husers.
  fold (select_user_by_id db (User.id u)).
  rewrite select_user_by_id_unique by done. cbn.
  by destruct (User.is_active u).
Qed.

(** X13.  [login] and the bearer authentication fit together: before its
    expiry, the access token that a successful login returns
    authenticates, on [GET /users/me], as the user that logged in, if that
    user is active, and is refused otherwise. *)
Theorem login_then_me (db db1 : Db) (email password : string) (na nr : Z)
    (uuid4 : string) (pair : TokenPair) (request : Request) (now : Z) :
  login settings verify_password db email password na nr uuid4 = Ok (pair, db1) ->
  NoDup (User.id <$> users db) ->
  now < na + timedelta_minutes (ACCESS_TOKEN_EXPIRES_MINUTES settings) ->
  exists u,
    u ∈ users db /\ User.email u = email /\
    me settings request db1 (Some (tp_access_token pair)) now =
      if User.is_active u then Ok u else Raise UserInactiveOrMissing.
Proof.
  intros Hlogin Hnd Hnow.
  apply login_select in Hlogin as (u & Hin & Hemail & Husers & -> & _).
  exists u. split_and!; try done. unfold me. cbn [tp_access_token].
  rewrite get_current_user_issued; [|unfold select_user_by_id; rewrite Husers;
    by apply select_user_by_id_unique|done].
  by destruct (User.is_active u).
Qed.

(** A successful [refresh] has found one unrevoked, unexpired row and
    one active user, and issues the access token of that user. *)
Lemma refresh_ok_inv (db db' : Db) (t : token) (nd nc ni : Z) (a : AccessToken) :
  refresh settings db t nd nc ni = Ok (a, db') ->
  exists user,
    select_user_by_id db (User.id user) = [user] /\
    User.is_active user = true /\
    a = {| at_access_token :=
             create_access_token settings (PyStr.str (User.id user))
                                 (User.role user) ni |}.
Proof.
  intros H. destruct (refresh_ok_checked _ _ _ _ _ _ _ _ H) as (data & Hd & Ht & Hj & Hs).
  rewrite (refresh_checked settings db t nd nc ni data) in H by done.
  destruct (scalar_one_or_none _) as [[[pk rt]|]|]; cbn in H; try done.
  destruct (RefreshToken.revoked rt); [done|].
  destruct (_ <=? _); [done|].
  destruct (int_of_jvalue _) as [uid|]; cbn in H; [|done].
  destruct (scalar_one_or_none _) as [[user|]|] eqn:Hsel; cbn in H; try done.
  apply scalar_one_or_none_Some in Hsel.
  destruct (User.is_active user) eqn:Hact; cbn in H; [|done].
  injection H as <- _. exists user. split_and!; try done.
  assert (Hin : user ∈ select_user_by_id db uid)
    by (rewrite Hsel; apply list_elem_of_here).
  apply list_elem_of_filter in Hin as [<- _]. done.
Qed.

(** X14.  [refresh] and the bearer authentication fit together: before
    its expiry, the access token that a successful refresh returns
    authenticates, on [GET /users/me], as an active user of the table. *)
Theorem refresh_then_me (db db' : Db) (t : token) (nd nc ni : Z)
    (a : AccessToken) (request : Request) (now : Z) :
  refresh settings db t nd nc ni = Ok (a, db') ->
  now < ni + timedelta_minutes (ACCESS_TOKEN_EXPIRES_MINUTES settings) ->
  exists u,
    me settings request db' (Some (at_access_token a)) now = Ok u /\
    u ∈ users db /\ User.is_active u = true.
Proof.
  intros H Hnow. pose proof (refresh_db_unchanged _ _ _ _ _ _ _ _ H) as ->.
  apply refresh_ok_inv in H as (u & Hsel & Hact & ->).
  exists u. unfold me. cbn [at_access_token].
  rewrite get_current_user_issued by done. rewrite Hact. split_and!; try done.
  assert (Hin : u ∈ select_user_by_id db (User.id u))
    by (rewrite Hsel; apply list_elem_of_here).
  by apply list_elem_of_filter in Hin as [_ Hin].
Qed.

Lemma revoke_revoked (rt : RefreshToken.t) :
  RefreshToken.revoked rt = true -> RefreshToken.revoke rt = rt.
Proof. destruct rt as [u j e r]. cbn. by intros ->. Qed.

(** X15.  [logout] can be repeated: after a successful logout, a second
    logout with the same token, while it still decodes, succeeds again and
    changes nothing. *)
Theorem logout_idempotent (db db1 : Db) (t : token) (nd nd' : Z) (msg : string) :
  logout settings db t nd = Ok (msg, db1) ->
  is_ok (decode_token settings t nd') = true ->
  logout settings db1 t nd' = Ok ("Logged out", db1).
Proof.
  intros Hout Hdec.
  apply logout_ok_inv in Hout as (data & pk & rt & Hd & Htyp & Htj & Hsel & ->).
  destruct (decode_token settings t nd') as [data'|] eqn:Hd'; [|done].
  assert (data' = data) as -> by (by eapply decode_token_same_claims).
  rewrite (logout_checked settings _ t nd' data) by done.
  destruct (revoked_one_set_revoked db pk rt _ _ Hsel (or_introl eq_refl))
    as (pk' & rt' & Hsel' & Hrev').
  rewrite Hsel'. cbn [scalar_one_or_none mbind res_bind].
  apply select_singleton in Hsel' as [Hpk' _].
  unfold set_revoked at 1. cbn [users refresh_tokens] in *.
  rewrite revoke_revoked by done. by rewrite list_insert_id.
Qed.

Lemma select_set_revoked_other (db : Db) (pk : nat) (rt : RefreshToken.t)
    (j j' : jvalue) :
  select_refresh_token_by_jti db j' = [(pk, rt)] ->
  j <> j' ->
  select_refresh_token_by_jti (set_revoked db pk rt) j
  = select_refresh_token_by_jti db j.
Proof.
  intros Hsel Hne. apply select_singleton in Hsel as [Hpk Hj].
  destruct (select_insert db pk rt (RefreshToken.revoke rt) j Hpk eq_refl)
    as (before & after & Hold & Hnew).
  unfold set_revoked. rewrite Hnew, Hold.
  destruct (decide (JStr (RefreshToken.jti rt) = j)); [congruence|done].
Qed.

(** X16.  [logout] ends one session only: for a token that carries
    another identifier than the one logged out, [refresh] answers after
    the logout as it did before. *)
Theorem logout_other_session_unaffected (db db1 : Db) (t1 t2 : token)
    (nd1 : Z) (msg : string) (data1 data2 : claims) (nd nc ni : Z) :
  logout settings db t1 nd1 = Ok (msg, db1) ->
  decode_token settings t1 nd1 = Ok data1 ->
  decode_token settings t2 nd = Ok data2 ->
  data2 !! "jti" <> data1 !! "jti" ->
  refresh settings db1 t2 nd nc ni =
    match refresh settings db t2 nd nc ni with
    | Ok (a, _) => Ok (a, db1)
    | Raise e => Raise e
    end.
Proof.
  intros Hout Hd1 Hd2 Hne.
  apply logout_ok_inv in Hout as (data & pk & rt & Hd & _ & Htj & Hsel & ->).
  assert (data = data1) as -> by congruence.
  destruct (decide (data2 !! "typ" = Some (JStr "refresh"))) as [Htyp|Htyp];
    [|unfold refresh; rewrite Hd2; cbn [try_except mbind res_bind];
      by rewrite bool_decide_eq_true_2].
  destruct (truthy (data2 !! "jti")) eqn:Hj2;
    [|unfold refresh; rewrite Hd2; cbn [try_except mbind res_bind];
      rewrite bool_decide_eq_false_2 by (intros H; by apply H);
      by rewrite Hj2].
  destruct (truthy (data2 !! "sub")) eqn:Hs2;
    [|unfold refresh; rewrite Hd2; cbn [try_except mbind res_bind];
      rewrite bool_decide_eq_false_2 by (intros H; by apply H);
      by rewrite Hj2, Hs2].
  rewrite !(refresh_checked settings _ t2 nd nc ni data2) by done.
  rewrite (select_set_revoked_other db pk rt _ _ Hsel).
  - destruct (scalar_one_or_none _) as [[[pk2 rt2]|]|]; cbn; try done.
    destruct (RefreshToken.revoked rt2); [done|].
    destruct (_ <=? _); [done|].
    destruct (int_of_jvalue _) as [uid|]; cbn; [|done].
    change (select_user_by_id (set_revoked db pk rt) uid)
      with (select_user_by_id db uid).
    destruct (scalar_one_or_none _) as [[user|]|]; cbn; try done.
    by destruct (negb _).
  - destruct (data2 !! "jti") as [v2|]; [|done].
    destruct (data1 !! "jti") as [v1|]; [|done]. cbn. congruence.
Qed.

(** X17.  A refresh token whose record is in order is still refused when
    its owner is gone or not active: with a decodable issued token, one
    row under its identifier, neither revoked nor expired, and no active
    user with the id of the token, [refresh] fails with the
    inactive-or-missing failure. *)
Theorem refresh_owner_missing_or_inactive (db : Db) (user_id : Z)
    (jti : option string) (expires_days : option Z) (issued : Z)
    (uuid4 : string) (nd nc ni : Z) (pk : nat) (rt : RefreshToken.t) :
  let issue :=
    create_refresh_token settings user_id jti expires_days issued uuid4 in
  uuid4 <> "" ->
  nd < issue.2 ->
  select_refresh_token_by_jti db (JStr issue.1.2) = [(pk, rt)] ->
  RefreshToken.revoked rt = false ->
  nc < RefreshToken.expires_at rt ->
  NoDup (User.id <$> users db) ->
  (forall u, u ∈ users db -> User.id u = user_id -> User.is_active u = false) ->
  refresh settings db issue.1.1 nd nc ni = Raise UserInactiveOrMissing.
Proof.
  intros issue Hu Hnd Hsel Hrev Hexp Hnodup Hnone.
  pose proof (refresh_issued db user_id jti expires_days issued uuid4 nd nc ni
                pk rt Hu Hnd Hsel) as Href.
  cbn zeta in Href. fold issue in Href. rewrite Href, Hrev.
  rewrite (proj2 (Z.leb_gt _ _)) by done.
  unfold select_user_by_id.
  destruct (filter_key_unique User.id user_id (users db) Hnodup) as [->|[u Hf]]; [done|].
  rewrite Hf. cbn.
  assert (Hin : u ∈ filter (λ x, User.id x = user_id) (users db))
    by (rewrite Hf; apply list_elem_of_here).
  apply list_elem_of_filter in Hin as [Hid Hin].
  by rewrite (Hnone u Hin Hid).
Qed.

End AuthExtras.

(** ** Closed instances of the further properties *)


(** The access token of [example_user], one minute after issue. *)
Lemma get_current_user_sound_witness :
  let request := {| state_user_id := None; x_forwarded_for := None;
                    client_host := Some "10.0.0.1" |} in
  let request' := {| state_user_id := Some 1; x_forwarded_for := None;
                     client_host := Some "10.0.0.1" |} in
  let credentials := Some (create_access_token default_settings "1" "admin" 0) in
  example_user ∈ users example_db /\
  User.is_active example_user = true /\
  (exists t payload,
     credentials = Some t /\
     decode_token default_settings t 60000000 = Ok payload /\
     int_of_jvalue (payload !! "sub") = Ok (User.id example_user)) /\
  state_user_id request' = Some (User.id example_user) /\
  x_forwarded_for request' = x_forwarded_for request /\
  client_host request' = client_host request.
Proof.
  intros request request' credentials.
  apply (get_current_user_sound default_settings request request' example_db
           credentials 60000000 example_user).
  vm_compute. reflexivity.
Defined.

(** [example_user] has the role "admin" in the table and presents a token
    that says "user". *)
Lemma admin_secret_checks_stored_role_witness :
  admin_secret default_settings
    {| state_user_id := None; x_forwarded_for := None; client_host := None |}
    example_db
    (Some (create_access_token default_settings (PyStr.str 1) "user" 0))
    60000000
  = Ok [("secret", "ok")].
Proof.
  apply (admin_secret_checks_stored_role default_settings
           {| state_user_id := None; x_forwarded_for := None; client_host := None |}
           example_db example_user "user" 0 60000000).
  - apply NoDup_singleton.
  - apply list_elem_of_here.
  - reflexivity.
  - reflexivity.
Defined.

(** The login of [example_user] at time 0, and the database after it. *)
Lemma example_login :
  login default_settings example_verify example_db
        "ann@example.org" "s3cret" 0 0 "7c9e"
  = Ok ({| tp_access_token := create_access_token default_settings "1" "admin" 0;
           tp_refresh_token := example_refresh_token |},
        example_db_logged_in).
Proof. vm_compute. reflexivity. Qed.

Lemma login_then_refresh_witness :
  exists u,
    u ∈ users example_db /\ User.email u = "ann@example.org" /\
    refresh default_settings example_db_logged_in example_refresh_token
            60000000 60000000 60000000 =
      if User.is_active u
      then Ok ({| at_access_token :=
                    create_access_token default_settings (PyStr.str (User.id u))
                                        (User.role u) 60000000 |},
               example_db_logged_in)
      else Raise UserInactiveOrMissing.
Proof.
  apply (login_then_refresh default_settings example_verify example_db
           example_db_logged_in "ann@example.org" "s3cret" 0 0 "7c9e"
           {| tp_access_token := create_access_token default_settings "1" "admin" 0;
              tp_refresh_token := example_refresh_token |}
           60000000 60000000 60000000).
  - exact example_login.
  - discriminate.
  - apply NoDup_singleton.
  - reflexivity.
  - reflexivity.
Defined.

Lemma login_then_me_witness :
  exists u,
    u ∈ users example_db /\ User.email u = "ann@example.org" /\
    me default_settings
       {| state_user_id := None; x_forwarded_for := None; client_host := None |}
       example_db_logged_in
       (Some (create_access_token default_settings "1" "admin" 0)) 60000000 =
      if User.is_active u then Ok u else Raise UserInactiveOrMissing.
Proof.
  apply (login_then_me default_settings example_verify example_db
           example_db_logged_in "ann@example.org" "s3cret" 0 0 "7c9e"
           {| tp_access_token := create_access_token default_settings "1" "admin" 0;
              tp_refresh_token := example_refresh_token |}
           {| state_user_id := None; x_forwarded_for := None; client_host := None |}
           60000000).
  - exact example_login.
  - apply NoDup_singleton.
  - reflexivity.
Defined.

Lemma refresh_then_me_witness :
  exists u,
    me default_settings
       {| state_user_id := None; x_forwarded_for := None; client_host := None |}
       example_db_logged_in
       (Some (create_access_token default_settings "1" "admin" 60000000))
       120000000 = Ok u /\
    u ∈ users example_db_logged_in /\ User.is_active u = true.
Proof.
  apply (refresh_then_me default_settings example_db_logged_in
           example_db_logged_in example_refresh_token 60000000 60000000 60000000
           {| at_access_token :=
                create_access_token default_settings "1" "admin" 60000000 |}
           {| state_user_id := None; x_forwarded_for := None; client_host := None |}
           120000000).
  - vm_compute. reflexivity.
  - reflexivity.
Defined.

Lemma logout_idempotent_witness :
  logout default_settings example_db_logged_out example_refresh_token 2000000
  = Ok ("Logged out", example_db_logged_out).
Proof.
  apply (logout_idempotent default_settings example_db_logged_in
           example_db_logged_out example_refresh_token 1000000 2000000
           "Logged out").
  - vm_compute. reflexivity.
  - vm_compute. reflexivity.
Defined.

(** The first of two sessions is logged out; the token of the second is
    refreshed one minute later. *)
Lemma logout_other_session_unaffected_witness :
  refresh default_settings (example_db_two_sessions true)
          example_refresh_token_2 60000000 60000000 60000000 =
    match refresh default_settings (example_db_two_sessions false)
                  example_refresh_token_2 60000000 60000000 60000000 with
    | Ok (a, _) => Ok (a, example_db_two_sessions true)
    | Raise e => Raise e
    end.
Proof.
  apply (logout_other_session_unaffected default_settings
           (example_db_two_sessions false) (example_db_two_sessions true)
           example_refresh_token example_refresh_token_2 3000000 "Logged out"
           (refresh_claims "1" "7c9e" (timedelta_days 7))
           (refresh_claims "1" "b2d1" (2000000 + timedelta_days 7))).
  - vm_compute. reflexivity.
  - vm_compute. reflexivity.
  - vm_compute. reflexivity.
  - vm_compute. discriminate.
Defined.

(** [example_user] has been deactivated after the login. *)
Lemma refresh_owner_missing_or_inactive_witness :
  refresh default_settings example_db_deactivated example_refresh_token
          60000000 60000000 60000000
  = Raise UserInactiveOrMissing.
Proof.
  apply (refresh_owner_missing_or_inactive default_settings
           example_db_deactivated 1 None None 0 "7c9e"
           60000000 60000000 60000000 0%nat (example_row false)).
  - discriminate.
  - reflexivity.
  - vm_compute. reflexivity.
  - reflexivity.
  - reflexivity.
  - apply NoDup_singleton.
  - intros u Hu _. apply list_elem_of_singleton in Hu as ->. reflexivity.
Defined.
